(** * Specs-Nexus front end: event management and profile pages

    A shallow embedding of the page-level logic of
    [OfficerManageEventsPage] (event handlers, modals, text truncation),
    [ProfilePage] (profile fetch and update) and [ProfileCard] (the
    profile edit form), and the properties of the specification that
    concern them.

    Asynchronous handlers are embedded as trees of effects ([Prog]): local
    state updates, [localStorage] removals, navigation, and awaited
    backend requests whose continuation receives the settled promise. *)

From Stdlib Require Import ZArith Bool Ascii String List Lia.
From stdpp Require Import base option strings gmap.
Import ListNotations.

Local Open Scope string_scope.
Local Open Scope list_scope.
Set Warnings "-register-all".
Set Default Proof Using "Type".

(** ** JavaScript values and string helpers *)

Module Js.

(** JSON-like values exchanged with the backend.  Numbers are integers;
    objects keep their properties in insertion order. *)
Inductive JsVal : Type :=
| JUndefined
| JNull
| JBool (b : bool)
| JNum (n : Z)
| JStr (s : string)
| JArr (items : list JsVal)
| JObj (props : list (string * JsVal)).

(** ToBoolean: [undefined], [null], [false], [0] and [''] are falsy. *)
Definition truthy (v : JsVal) : bool :=
  match v with
  | JUndefined | JNull => false
  | JBool b => b
  | JNum n => negb (n =? 0)%Z
  | JStr s => negb (String.eqb s "")
  | JArr _ | JObj _ => true
  end.

(** [a || b] *)
Definition or_else (a b : JsVal) : JsVal := if truthy a then a else b.

Fixpoint assoc (k : string) (props : list (string * JsVal)) : JsVal :=
  match props with
  | [] => JUndefined
  | (k', v) :: rest => if String.eqb k k' then v else assoc k rest
  end.

(** [v.k] on a value that is known not to be [null]/[undefined];
    [v?.k] on any value. *)
Definition get (v : JsVal) (k : string) : JsVal :=
  match v with
  | JObj props => assoc k props
  | _ => JUndefined
  end.

Definition digit (n : nat) : ascii := ascii_of_nat (48 + n).

Fixpoint decimal (fuel : nat) (n : N) (acc : string) : string :=
  match fuel with
  | O => acc
  | S fuel' =>
      let acc' := String (digit (N.to_nat (n mod 10))) acc in
      if (n <? 10)%N then acc' else decimal fuel' (n / 10)%N acc'
  end.

Definition string_of_Z (n : Z) : string :=
  let m := Z.to_N (Z.abs n) in
  let body := decimal (S (N.to_nat (N.log2 m))) m "" in
  if (n <? 0)%Z then String "-" body else body.

Fixpoint join (sep : string) (parts : list string) : string :=
  match parts with
  | [] => ""
  | [p] => p
  | p :: rest => p +:+ sep +:+ join sep rest
  end.

(** ToString, as applied by template literals and by [new Error(v)]. *)
Fixpoint toString (v : JsVal) : string :=
  match v with
  | JUndefined => "undefined"
  | JNull => "null"
  | JBool true => "true"
  | JBool false => "false"
  | JNum n => string_of_Z n
  | JStr s => s
  | JArr items =>
      join "," (map (fun x => match x with
                              | JUndefined | JNull => ""
                              | _ => toString x
                              end) items)
  | JObj _ => "[object Object]"
  end.

(** [s.includes(sub)] *)
Fixpoint includes (s sub : string) : bool :=
  String.prefix sub s
  || match s with
     | EmptyString => false
     | String _ s' => includes s' sub
     end.

(** Truthiness of a value read from [localStorage] ([!token],
    [storedOfficer ? ... : ...]): [null] and [''] are falsy. *)
Definition present (item : option string) : bool :=
  match item with
  | Some t => negb (String.eqb t "")
  | None => false
  end.

(** A settled promise: fulfilled with a value, or rejected with an
    [Error] whose [message] is recorded. *)
Inductive Settled (A : Type) : Type :=
| Fulfilled (value : A)
| Rejected (message : string).
Arguments Fulfilled {A} value.
Arguments Rejected {A} message.

End Js.
Import Js.


(** ** Effects of an event handler *)

Module Effects.

(** The object a [fetch] promise is fulfilled with: the HTTP status and
    the outcome of reading the body with [response.json()]. *)
Record HttpResponse : Type := mkHttpResponse {
  status : Z;
  json : Settled JsVal;
}.

(** [response.ok]: the status is in the range 200-299. *)
Definition ok (r : HttpResponse) : bool :=
  ((200 <=? status r) && (status r <=? 299))%Z.

(** The arguments of a [fetch] call: the URL and the [init] object. *)
Record FetchInit : Type := mkFetch {
  url : string;
  method : string;
  authorization : string;
}.

(** A token read with [localStorage.getItem]: [None] is [null]. *)
Definition Token : Type := option string.

(** [`Bearer ${token}`] *)
Definition bearer (token : Token) : string :=
  "Bearer " +:+ default "null" token.

(** Calls into the service layer ([officerEventService], [userService]),
    with their arguments in source order. *)
Inductive ServiceCall : Type :=
| getOfficerEvents (token : Token) (archived : bool)
| createOfficerEvent (formData : JsVal) (token : Token)
| updateOfficerEvent (eventId : JsVal) (formData : JsVal) (token : Token)
| deleteOfficerEvent (eventId : JsVal) (token : Token)
| getProfile (token : Token)
| updateProfile (token : Token) (updatedData : gmap string JsVal).

Inductive Request : Type :=
| Service (c : ServiceCall)
| Http (r : FetchInit).

(** The backend as seen by one run: how the [n]-th request of the run
    settles. *)
Record Backend : Type := mkBackend {
  service : nat -> ServiceCall -> Settled JsVal;
  http : nat -> FetchInit -> Settled HttpResponse;
}.

(** How a request settled. *)
Inductive Reply : Type :=
| ServiceReply (r : Settled JsVal)
| HttpReply (r : Settled HttpResponse).

(** A backend that settles every request the same way. *)
Definition always (r : Settled JsVal) (h : Settled HttpResponse) : Backend :=
  mkBackend (fun _ _ => r) (fun _ _ => h).

Section Prog.

Context {S : Type}.

(** Everything a handler can observe or change: the component state, the
    browser's [localStorage], the routes navigated to, the requests
    issued so far, the requests that have settled (with their outcome),
    and the messages of errors no handler caught. *)
Record World : Type := mkWorld {
  state : S;
  localStorage : gmap string string;
  navigated : list string;
  requests : list Request;
  settled : list (Request * Reply);
  uncaught : list string;
}.

Definition with_state (f : S -> S) (w : World) : World :=
  mkWorld (f (state w)) (localStorage w) (navigated w) (requests w)
    (settled w) (uncaught w).

Definition removeItem (key : string) (w : World) : World :=
  mkWorld (state w) (delete key (localStorage w)) (navigated w) (requests w)
    (settled w) (uncaught w).

Definition navigate (path : string) (w : World) : World :=
  mkWorld (state w) (localStorage w) (navigated w ++ [path]) (requests w)
    (settled w) (uncaught w).

Definition issue (r : Request) (w : World) : World :=
  mkWorld (state w) (localStorage w) (navigated w) (requests w ++ [r])
    (settled w) (uncaught w).

Definition receive (r : Request) (reply : Reply) (w : World) : World :=
  mkWorld (state w) (localStorage w) (navigated w) (requests w)
    (settled w ++ [(r, reply)]) (uncaught w).

Definition unhandled (message : string) (w : World) : World :=
  mkWorld (state w) (localStorage w) (navigated w) (requests w)
    (settled w) (uncaught w ++ [message]).

(** The body of an [async] function.  [SetState f] is a state setter
    called with an updater ([setX(prev => f prev)]; [setX(v)] is the
    constant updater); [Call] and [Fetch] are the points where the
    function awaits the backend. *)
Inductive Prog : Type :=
| Done
| Throw (message : string)
| SetState (f : S -> S) (k : Prog)
| GetItem (key : string) (k : option string -> Prog)
| RemoveItem (key : string) (k : Prog)
| Navigate (path : string) (k : Prog)
| Call (c : ServiceCall) (k : Settled JsVal -> Prog)
| Fetch (r : FetchInit) (k : Settled HttpResponse -> Prog).

(** [p; q] *)
Fixpoint seq (p q : Prog) : Prog :=
  match p with
  | Done => q
  | Throw m => Throw m
  | SetState f k => SetState f (seq k q)
  | GetItem key k => GetItem key (fun v => seq (k v) q)
  | RemoveItem key k => RemoveItem key (seq k q)
  | Navigate path k => Navigate path (seq k q)
  | Call c k => Call c (fun r => seq (k r) q)
  | Fetch r k => Fetch r (fun x => seq (k x) q)
  end.

(** [try { p } catch (error) { h error.message }] *)
Fixpoint try_catch (p : Prog) (h : string -> Prog) : Prog :=
  match p with
  | Done => Done
  | Throw m => h m
  | SetState f k => SetState f (try_catch k h)
  | GetItem key k => GetItem key (fun v => try_catch (k v) h)
  | RemoveItem key k => RemoveItem key (try_catch k h)
  | Navigate path k => Navigate path (try_catch k h)
  | Call c k => Call c (fun r => try_catch (k r) h)
  | Fetch r k => Fetch r (fun x => try_catch (k x) h)
  end.

(** [try { p } finally { q }] *)
Fixpoint finally (p q : Prog) : Prog :=
  match p with
  | Done => q
  | Throw m => seq q (Throw m)
  | SetState f k => SetState f (finally k q)
  | GetItem key k => GetItem key (fun v => finally (k v) q)
  | RemoveItem key k => RemoveItem key (finally k q)
  | Navigate path k => Navigate path (finally k q)
  | Call c k => Call c (fun r => finally (k r) q)
  | Fetch r k => Fetch r (fun x => finally (k x) q)
  end.

(** [const v = await service(...); k v]: a rejection is thrown. *)
Definition await (c : ServiceCall) (k : JsVal -> Prog) : Prog :=
  Call c (fun r => match r with
                   | Fulfilled v => k v
                   | Rejected m => Throw m
                   end).

(** [const res = await fetch(url, init); k res] *)
Definition await_fetch (r : FetchInit) (k : HttpResponse -> Prog) : Prog :=
  Fetch r (fun x => match x with
                    | Fulfilled res => k res
                    | Rejected m => Throw m
                    end).

(** Running a handler to completion against a backend: each request is
    issued and settles before the handler goes on. *)
Fixpoint exec (b : Backend) (p : Prog) (w : World) : World :=
  match p with
  | Done => w
  | Throw m => unhandled m w
  | SetState f k => exec b k (with_state f w)
  | GetItem key k => exec b (k (localStorage w !! key)) w
  | RemoveItem key k => exec b k (removeItem key w)
  | Navigate path k => exec b k (navigate path w)
  | Call c k =>
      let reply := service b (length (requests w)) c in
      exec b (k reply)
        (receive (Service c) (ServiceReply reply) (issue (Service c) w))
  | Fetch r k =>
      let reply := http b (length (requests w)) r in
      exec b (k reply)
        (receive (Http r) (HttpReply reply) (issue (Http r) w))
  end.

(** The requests that settled between [w] and a later world [w']. *)
Definition exchanges (w w' : World) : list (Request * Reply) :=
  drop (length (settled w)) (settled w').

(** The request a suspended handler waits for, and the handler's next
    steps once it settles. *)
Definition resume (p : Prog) (reply : Reply) : option (Request * Prog) :=
  match p, reply with
  | Call c k, ServiceReply r => Some (Service c, k r)
  | Fetch i k, HttpReply r => Some (Http i, k r)
  | _, _ => None
  end.

(** Every state update of [p] satisfies [PS] and every service call
    [PC], whatever the backend answers. *)
Inductive all_steps (PS : (S -> S) -> Prop) (PC : ServiceCall -> Prop)
    : Prog -> Prop :=
| all_Done : all_steps PS PC Done
| all_Throw m : all_steps PS PC (Throw m)
| all_SetState f k :
    PS f -> all_steps PS PC k -> all_steps PS PC (SetState f k)
| all_GetItem key k :
    (forall v, all_steps PS PC (k v)) -> all_steps PS PC (GetItem key k)
| all_RemoveItem key k :
    all_steps PS PC k -> all_steps PS PC (RemoveItem key k)
| all_Navigate path k :
    all_steps PS PC k -> all_steps PS PC (Navigate path k)
| all_Call c k :
    PC c -> (forall r, all_steps PS PC (k r)) -> all_steps PS PC (Call c k)
| all_Fetch r k :
    (forall x, all_steps PS PC (k x)) -> all_steps PS PC (Fetch r k).

(** The same, for a handler that has issued its request and waits. *)
Definition all_next (PS : (S -> S) -> Prop) (PC : ServiceCall -> Prop)
    (p : Prog) : Prop :=
  forall reply r k, resume p reply = Some (r, k) -> all_steps PS PC k.

(** *** Interleaving: handlers suspended at an [await]

    A handler runs until it awaits the backend; the request is issued and
    the rest of the handler waits for the reply while other events are
    handled. *)

Fixpoint advance (p : Prog) (w : World) : World * option Prog :=
  match p with
  | Done => (w, None)
  | Throw m => (unhandled m w, None)
  | SetState f k => advance k (with_state f w)
  | GetItem key k => advance (k (localStorage w !! key)) w
  | RemoveItem key k => advance k (removeItem key w)
  | Navigate path k => advance k (navigate path w)
  | Call c _ => (issue (Service c) w, Some p)
  | Fetch r _ => (issue (Http r) w, Some p)
  end.

(** How the backend [b] answers a suspended handler whose request was
    the [n]-th. *)
Definition answer (b : Backend) (n : nat) (p : Prog) : Reply :=
  match p with
  | Fetch r _ => HttpReply (http b n r)
  | Call c _ => ServiceReply (service b n c)
  | _ => ServiceReply (Rejected "")
  end.

Record Machine : Type := mkMachine {
  world : World;
  pending : list Prog;
}.

(** Start a handler: run it up to its first [await]. *)
Definition start (p : Prog) (m : Machine) : Machine :=
  match advance p (world m) with
  | (w, Some waiting) => mkMachine w (pending m ++ [waiting])
  | (w, None) => mkMachine w (pending m)
  end.

(** The [i]-th pending request settles with [reply]. *)
Definition settle (i : nat) (reply : Reply) (m : Machine) : Machine :=
  match pending m !! i with
  | Some p =>
      match resume p reply with
      | Some (r, k) =>
          start k (mkMachine (receive r reply (world m)) (delete i (pending m)))
      | None => m
      end
  | None => m
  end.

End Prog.

Arguments World : clear implicits.
Arguments Machine : clear implicits.
Arguments Prog : clear implicits.

End Effects.
Import Effects.

(** ** OfficerManageEventsPage *)

Module OfficerManageEventsPage.

Module StatusModal.
Record t : Type := mk {
  isOpen : bool;
  title : string;
  message : string;
  type : string;
}.
End StatusModal.

(** The [confirmArchive] function object stored in the confirmation
    modal's state.  It is the closure of the render in which the Archive
    button was clicked, so it carries that render's [confirmationModal.eventId],
    [token] and [showArchived]. *)
Record ArchiveClosure : Type := mkClosure {
  closure_eventId : JsVal;
  closure_token : Token;
  closure_showArchived : bool;
}.

Module ConfirmationModal.
Record t : Type := mk {
  isOpen : bool;
  title : string;
  message : string;
  onConfirm : option ArchiveClosure;
  eventId : JsVal;
  isLoading : bool;
}.
End ConfirmationModal.

Module ApprovalModal.
Record t : Type := mk {
  isOpen : bool;
  eventId : JsVal;
}.
End ApprovalModal.

(** The component's [useState] cells. *)
Record PageState : Type := mkState {
  officer : JsVal;
  events : JsVal;
  showEventModal : bool;
  showDetailsModal : bool;
  selectedEvent : JsVal;
  showParticipantsModal : bool;
  participants : JsVal;
  isLoading : bool;
  showArchived : bool;
  isTransitioning : bool;
  statusModal : StatusModal.t;
  confirmationModal : ConfirmationModal.t;
  approvalModal : ApprovalModal.t;
}.

(** The initial values passed to [useState]. *)
Definition initialState : PageState := {|
  officer := JNull;
  events := JArr [];
  showEventModal := false;
  showDetailsModal := false;
  selectedEvent := JNull;
  showParticipantsModal := false;
  participants := JArr [];
  isLoading := true;
  showArchived := false;
  isTransitioning := false;
  statusModal := StatusModal.mk false "" "" "success";
  confirmationModal := ConfirmationModal.mk false "" "" None JNull false;
  approvalModal := ApprovalModal.mk false JNull;
|}.

(** The state setters. *)
Definition setOfficer (v : JsVal) (s : PageState) : PageState :=
  mkState v (events s) (showEventModal s) (showDetailsModal s)
    (selectedEvent s) (showParticipantsModal s) (participants s) (isLoading s)
    (showArchived s) (isTransitioning s) (statusModal s) (confirmationModal s)
    (approvalModal s).

Definition setEvents (v : JsVal) (s : PageState) : PageState :=
  mkState (officer s) v (showEventModal s) (showDetailsModal s)
    (selectedEvent s) (showParticipantsModal s) (participants s) (isLoading s)
    (showArchived s) (isTransitioning s) (statusModal s) (confirmationModal s)
    (approvalModal s).

Definition setShowEventModal (v : bool) (s : PageState) : PageState :=
  mkState (officer s) (events s) v (showDetailsModal s)
    (selectedEvent s) (showParticipantsModal s) (participants s) (isLoading s)
    (showArchived s) (isTransitioning s) (statusModal s) (confirmationModal s)
    (approvalModal s).

Definition setShowDetailsModal (v : bool) (s : PageState) : PageState :=
  mkState (officer s) (events s) (showEventModal s) v
    (selectedEvent s) (showParticipantsModal s) (participants s) (isLoading s)
    (showArchived s) (isTransitioning s) (statusModal s) (confirmationModal s)
    (approvalModal s).

Definition setSelectedEvent (v : JsVal) (s : PageState) : PageState :=
  mkState (officer s) (events s) (showEventModal s) (showDetailsModal s)
    v (showParticipantsModal s) (participants s) (isLoading s)
    (showArchived s) (isTransitioning s) (statusModal s) (confirmationModal s)
    (approvalModal s).

Definition setShowParticipantsModal (v : bool) (s : PageState) : PageState :=
  mkState (officer s) (events s) (showEventModal s) (showDetailsModal s)
    (selectedEvent s) v (participants s) (isLoading s)
    (showArchived s) (isTransitioning s) (statusModal s) (confirmationModal s)
    (approvalModal s).

Definition setParticipants (v : JsVal) (s : PageState) : PageState :=
  mkState (officer s) (events s) (showEventModal s) (showDetailsModal s)
    (selectedEvent s) (showParticipantsModal s) v (isLoading s)
    (showArchived s) (isTransitioning s) (statusModal s) (confirmationModal s)
    (approvalModal s).

Definition setIsLoading (v : bool) (s : PageState) : PageState :=
  mkState (officer s) (events s) (showEventModal s) (showDetailsModal s)
    (selectedEvent s) (showParticipantsModal s) (participants s) v
    (showArchived s) (isTransitioning s) (statusModal s) (confirmationModal s)
    (approvalModal s).

Definition setShowArchived (v : bool) (s : PageState) : PageState :=
  mkState (officer s) (events s) (showEventModal s) (showDetailsModal s)
    (selectedEvent s) (showParticipantsModal s) (participants s) (isLoading s)
    v (isTransitioning s) (statusModal s) (confirmationModal s)
    (approvalModal s).

Definition setIsTransitioning (v : bool) (s : PageState) : PageState :=
  mkState (officer s) (events s) (showEventModal s) (showDetailsModal s)
    (selectedEvent s) (showParticipantsModal s) (participants s) (isLoading s)
    (showArchived s) v (statusModal s) (confirmationModal s)
    (approvalModal s).

(** [setStatusModal(prev => f prev)] *)
Definition updateStatusModal (f : StatusModal.t -> StatusModal.t)
    (s : PageState) : PageState :=
  mkState (officer s) (events s) (showEventModal s) (showDetailsModal s)
    (selectedEvent s) (showParticipantsModal s) (participants s) (isLoading s)
    (showArchived s) (isTransitioning s) (f (statusModal s))
    (confirmationModal s) (approvalModal s).

Definition setStatusModal (v : StatusModal.t) : PageState -> PageState :=
  updateStatusModal (fun _ => v).

(** [setConfirmationModal(prev => f prev)] *)
Definition updateConfirmationModal
    (f : ConfirmationModal.t -> ConfirmationModal.t)
    (s : PageState) : PageState :=
  mkState (officer s) (events s) (showEventModal s) (showDetailsModal s)
    (selectedEvent s) (showParticipantsModal s) (participants s) (isLoading s)
    (showArchived s) (isTransitioning s) (statusModal s)
    (f (confirmationModal s)) (approvalModal s).

Definition setConfirmationModal (v : ConfirmationModal.t)
    : PageState -> PageState :=
  updateConfirmationModal (fun _ => v).

Definition setApprovalModal (v : ApprovalModal.t) (s : PageState) : PageState :=
  mkState (officer s) (events s) (showEventModal s) (showDetailsModal s)
    (selectedEvent s) (showParticipantsModal s) (participants s) (isLoading s)
    (showArchived s) (isTransitioning s) (statusModal s) (confirmationModal s)
    v.

(** The test every [catch] block of this page applies to [error.message]:
    [message.includes('Invalid or expired token') ||
     message.includes('HTTP error! status: 401')]. *)
Definition authFailed (message : string) : bool :=
  includes message "Invalid or expired token"
  || includes message "HTTP error! status: 401".

(** The three statements of every authentication-failure branch. *)
Definition logout : Prog PageState :=
  RemoveItem "officerAccessToken"
    (RemoveItem "officerInfo"
       (Navigate "/officer-login" Done)).

(** [obj.k] as an expression that throws on [null] and [undefined]. *)
Definition property (obj : JsVal) (k : string)
    (cont : JsVal -> Prog PageState) : Prog PageState :=
  match obj with
  | JUndefined =>
      Throw ("Cannot read properties of undefined (reading '" +:+ k +:+ "')")
  | JNull => Throw ("Cannot read properties of null (reading '" +:+ k +:+ "')")
  | _ => cont (get obj k)
  end.

(** [await response.json().catch(() => ({}))] *)
Definition json_or_empty (response : HttpResponse) : JsVal :=
  match json response with
  | Fulfilled v => v
  | Rejected _ => JObj []
  end.

Section Handlers.

(** [API_URL] is fixed when the bundle is built (environment variable or
    host name); [JSON.parse] is the host's parser, which either returns a
    value or throws a [SyntaxError] with some message. *)
Variable API_URL : string.
Variable JSON_parse : string -> Settled JsVal.

(** [fetch(`${API_URL}/events/${eventId}/approve`, { method: 'POST',
    headers: { Authorization: `Bearer ${token}` } })] *)
Definition approve_request (token : Token) (eventId : JsVal) : FetchInit :=
  mkFetch (API_URL +:+ "/events/" +:+ toString eventId +:+ "/approve")
    "POST" (bearer token).

(** [fetch(`${API_URL}/events/${event.id}/participants`,
    { headers: { Authorization: `Bearer ${token}` } })] *)
Definition participants_request (token : Token) (event : JsVal)
    : FetchInit :=
  mkFetch (API_URL +:+ "/events/" +:+ toString (get event "id")
           +:+ "/participants")
    "GET" (bearer token).

(** First effect: the authentication check on mount. *)
Definition authCheck (token : Token) : Prog PageState :=
  GetItem "officerInfo" (fun officerInfo =>
    if negb (present token) || negb (present officerInfo)
    then logout
    else Done).

(** Second effect: [fetchData], run on mount and whenever [showArchived]
    changes. *)
Definition fetchData (token : Token) (showArchived : bool) : Prog PageState :=
  if negb (present token) then Done else
  finally
    (try_catch
       (GetItem "officerInfo" (fun storedOfficer =>
          let parsed :=
            if present storedOfficer
            then JSON_parse (default "" storedOfficer)
            else Fulfilled JNull in
          match parsed with
          | Rejected m => Throw m
          | Fulfilled officerData =>
              SetState (setOfficer officerData)
                (await (getOfficerEvents token showArchived) (fun eventsData =>
                   SetState (setEvents eventsData) Done))
          end))
       (fun message =>
          let errorMessage :=
            if includes message "Officer not found"
            then "Your officer account was not found or is deactivated. Please contact support or log in again."
            else "Failed to load events. Please try again later." in
          if authFailed message
          then logout
          else SetState (setStatusModal
                 (StatusModal.mk true "Error" errorMessage "error")) Done))
    (SetState (setIsLoading false)
       (SetState (setIsTransitioning false) Done)).

Definition handleAddNewEvent : Prog PageState :=
  SetState (setSelectedEvent JNull)
    (SetState (setShowEventModal true) Done).

(** [handleEdit(evt, e)]: the event's id is read (for the log) before
    anything is set, which throws when [evt] is [null] or [undefined]. *)
Definition handleEdit (evt : JsVal) : Prog PageState :=
  property evt "id" (fun _ =>
    SetState (setSelectedEvent evt)
      (SetState (setShowEventModal true) Done)).

Definition handleApproveEvent (eventId : JsVal) : Prog PageState :=
  SetState (setApprovalModal (ApprovalModal.mk true eventId)) Done.

Definition closeApprovalModal : PageState -> PageState :=
  setApprovalModal (ApprovalModal.mk false JNull).

(** [handleApprovalSubmit({ action, reason })]; [reason] is [None] when
    the submitted object has no reason. *)
Definition handleApprovalSubmit (token : Token) (showArchived : bool)
    (approvalModal : ApprovalModal.t)
    (action : string) (reason : option string) : Prog PageState :=
  let eventId := ApprovalModal.eventId approvalModal in
  if negb (truthy eventId) then SetState closeApprovalModal Done else
  if String.eqb action "decline" then
    SetState closeApprovalModal
      (SetState (setStatusModal
         (StatusModal.mk true "Event Declined"
            ("The event plan has been declined."
             +:+ (if present reason
                 then " Reason: " +:+ default "" reason
                 else ""))
            "error")) Done)
  else
  try_catch
    (await_fetch (approve_request token eventId)
       (fun response =>
          if negb (ok response) then
            let errorData := json_or_empty response in
            if (status response =? 401)%Z then logout
            else property errorData "detail" (fun detail =>
              Throw (toString (or_else detail (JStr "Failed to approve event"))))
          else
            SetState closeApprovalModal
              (SetState (setStatusModal
                 (StatusModal.mk true "Event Approved"
                    "The event plan has been successfully approved."
                    "success"))
                 (await (getOfficerEvents token showArchived) (fun updated =>
                    SetState (setEvents updated) Done)))))
    (fun message =>
       SetState closeApprovalModal
         (SetState (setStatusModal
            (StatusModal.mk true "Error"
               (if String.eqb message ""
                then "Failed to approve event. Please try again."
                else message)
               "error")) Done)).

(** [confirmArchive], as the closure [c] created by some render. *)
Definition confirmArchive (c : ArchiveClosure) : Prog PageState :=
  let eventId := closure_eventId c in
  let token := closure_token c in
  let showArchived := closure_showArchived c in
  let stop_loading prev :=
    ConfirmationModal.mk false (ConfirmationModal.title prev)
      (ConfirmationModal.message prev) (ConfirmationModal.onConfirm prev)
      (ConfirmationModal.eventId prev) false in
  SetState (updateConfirmationModal (fun prev =>
      ConfirmationModal.mk (ConfirmationModal.isOpen prev)
        (ConfirmationModal.title prev) (ConfirmationModal.message prev)
        (ConfirmationModal.onConfirm prev) (ConfirmationModal.eventId prev)
        true))
    (try_catch
       (await (deleteOfficerEvent eventId token) (fun _ =>
        await (getOfficerEvents token showArchived) (fun updated =>
        SetState (setEvents updated)
          (SetState (updateConfirmationModal stop_loading)
             (SetState (setStatusModal
                (StatusModal.mk true "Event Archived"
                   "The event has been successfully archived." "success"))
                Done)))))
       (fun message =>
          if authFailed message
          then logout
          else SetState (updateConfirmationModal stop_loading)
                 (SetState (setStatusModal
                    (StatusModal.mk true "Error Archiving Event"
                       "Failed to archive the event. Please try again."
                       "error")) Done))).

(** [handleArchive(eventId, e)] in a render whose state cell is
    [confirmationModal]: the [confirmArchive] it stores is that render's. *)
Definition handleArchive (token : Token) (showArchived : bool)
    (confirmationModal : ConfirmationModal.t)
    (eventId : JsVal) : Prog PageState :=
  SetState (setConfirmationModal
    (ConfirmationModal.mk true "Archive Event"
       "Are you sure you want to archive this event? This action will move the event to archived status."
       (Some (mkClosure (ConfirmationModal.eventId confirmationModal)
                token showArchived))
       eventId false)) Done.

(** [handleDetails(event, e)]: as in [handleEdit], [event.id] is read
    first. *)
Definition handleDetails (event : JsVal) : Prog PageState :=
  property event "id" (fun _ =>
    SetState (setSelectedEvent event)
      (SetState (setShowDetailsModal true) Done)).

Definition handleParticipants (token : Token) (event : JsVal)
    : Prog PageState :=
  if negb (truthy (get event "id")) then
    SetState (setStatusModal
      (StatusModal.mk true "Error" "Cannot load participants: Invalid event."
         "error")) Done
  else
  SetState (setShowDetailsModal false)
    (SetState (setSelectedEvent event)
       (try_catch
          (match token with
           | None =>
               Throw "Cannot read properties of null (reading 'substring')"
           | Some _ =>
               await_fetch (participants_request token event)
                 (fun res =>
                    if negb (ok res) then
                      let errorData := json_or_empty res in
                      if (status res =? 401)%Z then logout
                      else property errorData "detail" (fun detail =>
                        Throw ("HTTP error! Status: "
                               +:+ string_of_Z (status res) +:+ ", detail: "
                               +:+ toString (or_else detail (JStr "Unknown"))))
                    else
                      match json res with
                      | Rejected m => Throw m
                      | Fulfilled participantsData =>
                          SetState (setParticipants
                                      (or_else participantsData (JArr [])))
                            (SetState (setShowParticipantsModal true) Done)
                      end)
           end)
          (fun _ =>
             SetState (setParticipants (JArr []))
               (SetState (setStatusModal
                  (StatusModal.mk true "Error"
                     "Failed to load participants. Please try again later."
                     "error"))
                  (SetState (setShowParticipantsModal true) Done))))).

Definition handleCloseEventModal : Prog PageState :=
  SetState (setShowEventModal false) Done.

Definition handleCloseDetailsModal : Prog PageState :=
  SetState (setShowDetailsModal false)
    (SetState (setSelectedEvent JNull) Done).

Definition handleCloseParticipantsModal : Prog PageState :=
  SetState (setShowParticipantsModal false)
    (SetState (setParticipants (JArr [])) Done).

Definition handleCloseStatusModal : Prog PageState :=
  SetState (updateStatusModal (fun prev =>
    StatusModal.mk false (StatusModal.title prev) (StatusModal.message prev)
      (StatusModal.type prev))) Done.

(** [handleCloseConfirmationModal] in a render whose state cell is
    [confirmationModal]. *)
Definition handleCloseConfirmationModal
    (confirmationModal : ConfirmationModal.t) : Prog PageState :=
  if negb (ConfirmationModal.isLoading confirmationModal) then
    SetState (updateConfirmationModal (fun prev =>
      ConfirmationModal.mk false (ConfirmationModal.title prev)
        (ConfirmationModal.message prev) (ConfirmationModal.onConfirm prev)
        (ConfirmationModal.eventId prev) (ConfirmationModal.isLoading prev)))
      Done
  else Done.

Definition handleSave (token : Token) (showArchived : bool)
    (formData eventId : JsVal) : Prog PageState :=
  try_catch
    (seq
       (if truthy eventId then
          await (updateOfficerEvent eventId formData token) (fun _ =>
            SetState (setStatusModal
              (StatusModal.mk true "Event Updated"
                 "Event updated successfully!" "success")) Done)
        else
          await (createOfficerEvent formData token) (fun _ =>
            SetState (setStatusModal
              (StatusModal.mk true "Event Created"
                 "Event created successfully!" "success")) Done))
       (SetState (setShowEventModal false)
          (await (getOfficerEvents token showArchived) (fun updated =>
             SetState (setEvents updated) Done))))
    (fun message =>
       let errorMessage :=
         if includes message "Officer not found"
         then "Your officer account was not found or is deactivated. Please contact support or log in again."
         else "Failed to save the event. Please try again." in
       if authFailed message
       then logout
       else SetState (setStatusModal
              (StatusModal.mk true "Error Saving Event" errorMessage "error"))
              Done).

Definition toggleArchived (showArchived : bool) : Prog PageState :=
  SetState (setIsTransitioning true)
    (SetState (setShowArchived (negb showArchived)) Done).

(** [truncateText(text, maxLength)]; [text] is [None] when it is [null]
    or [undefined], and [maxLength] is a character count (the page calls
    it with 40 and 25). *)
Definition truncateText (text : option string) (maxLength : nat) : string :=
  match text with
  | None => ""
  | Some t =>
      if String.eqb t "" then ""
      else if (maxLength <? String.length t)%nat
           then substring 0 maxLength t +:+ "..."
           else t
  end.

End Handlers.

(** *** The page as an event-driven machine *)

(** What the user can do on the rendered page: each constructor is one
    callback the JSX wires to a control or passes to a modal. *)
Inductive UiEvent : Type :=
| ClickAddNewEvent
| ClickEdit (evt : JsVal)
| ClickApproveEvent (eventId : JsVal)
| SubmitApproval (action : string) (reason : option string)
| CloseApprovalModal
| ClickArchive (eventId : JsVal)
| ClickConfirm
| CloseConfirmationModal
| ClickDetails (event : JsVal)
| ClickParticipants (event : JsVal)
| CloseEventModal
| CloseDetailsModal
| CloseParticipantsModal
| CloseStatusModal
| SaveEvent (formData eventId : JsVal)
| ToggleArchived.

Inductive Event : Type :=
| Ui (e : UiEvent)
| Settle (i : nat) (reply : Reply).

Section Page.

Variable API_URL : string.
Variable JSON_parse : string -> Settled JsVal.

(** [const token = localStorage.getItem('officerAccessToken')], evaluated
    by the render that created the handlers. *)
Definition render_token (w : World PageState) : Token :=
  localStorage w !! "officerAccessToken".

(** The handler an event invokes, built by the latest render of [w].
    [ClickConfirm] invokes the function stored in the modal's state;
    toggling the archive view re-runs the [fetchData] effect because
    [showArchived] is one of its dependencies. *)
Definition handle (w : World PageState) (e : UiEvent) : Prog PageState :=
  let token := render_token w in
  let s := state w in
  match e with
  | ClickAddNewEvent => handleAddNewEvent
  | ClickEdit evt => handleEdit evt
  | ClickApproveEvent eventId => handleApproveEvent eventId
  | SubmitApproval action reason =>
      handleApprovalSubmit API_URL token (showArchived s) (approvalModal s)
        action reason
  | CloseApprovalModal => SetState closeApprovalModal Done
  | ClickArchive eventId =>
      handleArchive token (showArchived s) (confirmationModal s) eventId
  | ClickConfirm =>
      match ConfirmationModal.onConfirm (confirmationModal s) with
      | Some c => confirmArchive c
      | None => Throw "onConfirm is not a function"
      end
  | CloseConfirmationModal =>
      handleCloseConfirmationModal (confirmationModal s)
  | ClickDetails event => handleDetails event
  | ClickParticipants event => handleParticipants API_URL token event
  | CloseEventModal => handleCloseEventModal
  | CloseDetailsModal => handleCloseDetailsModal
  | CloseParticipantsModal => handleCloseParticipantsModal
  | CloseStatusModal => handleCloseStatusModal
  | SaveEvent formData eventId =>
      handleSave token (showArchived s) formData eventId
  | ToggleArchived =>
      seq (toggleArchived (showArchived s))
        (fetchData JSON_parse token (negb (showArchived s)))
  end.

(** The page body is rendered only after loading, with a token and an
    officer ([if (isLoading || !token) return <Loading/>] and
    [if (!officer) return null]), and until the router leaves the page. *)
Definition rendered (w : World PageState) : bool :=
  negb (isLoading (state w)) && present (render_token w)
  && truthy (officer (state w))
  && match navigated w with [] => true | _ => false end.

(** Modelled from the spec: the [ConfirmationModal] component is not
    among the sources.  As a presentational modal parameterized by its
    open flag and its callback props, it offers its confirm and close
    buttons only while [isOpen] is true, and they call [onConfirm] and
    [onClose]. *)
Definition modal_offers (s : PageState) (e : UiEvent) : bool :=
  match e with
  | ClickConfirm
  | CloseConfirmationModal => ConfirmationModal.isOpen (confirmationModal s)
  | _ => true
  end.

Definition enabled (w : World PageState) (e : UiEvent) : bool :=
  rendered w && modal_offers (state w) e.

Definition step (m : Machine PageState) (ev : Event) : Machine PageState :=
  match ev with
  | Ui e => if enabled (world m) e then start (handle (world m) e) m else m
  | Settle i reply => settle i reply m
  end.

Definition run (evs : list Event) (m : Machine PageState)
    : Machine PageState :=
  fold_left step evs m.

(** Mounting the page in a browser whose storage is [storage]: the first
    render, then both effects. *)
Definition mount (storage : gmap string string) : Machine PageState :=
  let w := mkWorld initialState storage [] [] [] [] in
  start (seq (authCheck (render_token w))
             (fetchData JSON_parse (render_token w) false))
    (mkMachine w []).

End Page.

(** The service call [handleSave] makes first: an update when it is given
    an event id, a creation otherwise. *)
Definition save_call (token : Token) (formData eventId : JsVal)
    : ServiceCall :=
  if truthy eventId
  then updateOfficerEvent eventId formData token
  else createOfficerEvent formData token.

(** The session is cleared and the router sent to the officer login. *)
Definition logged_out (w w' : World PageState) : Prop :=
  localStorage w'
  = delete "officerInfo" (delete "officerAccessToken" (localStorage w))
  /\ navigated w' = navigated w ++ ["/officer-login"].

(** The outcome of a failure that is not an authentication failure: the
    error dialog is open, the session untouched. *)
Definition error_dialog_only (w w' : World PageState) : Prop :=
  StatusModal.isOpen (statusModal (state w')) = true
  /\ StatusModal.type (statusModal (state w')) = "error"
  /\ localStorage w' = localStorage w
  /\ navigated w' = navigated w.

(** A browser holding an officer session, with the page in state [s]. *)
Definition browsing (token info : string) (s : PageState)
    : World PageState :=
  mkWorld s
    (<["officerAccessToken" := token]> (<["officerInfo" := info]> ∅))
    [] [] [] [].

(** The message of the status modal after a decline: the reason is
    appended when one is given. *)
Definition decline_message (reason : option string) : string :=
  "The event plan has been declined."
  +:+ match reason with
      | Some r => if String.eqb r "" then "" else " Reason: " +:+ r
      | None => ""
      end.

(** [deleteOfficerEvent] requests. *)
Definition is_delete (r : Request) : bool :=
  match r with
  | Service (deleteOfficerEvent _ _) => true
  | _ => false
  end.

(** A state update that does not open the confirmation modal. *)
Definition keeps_closed (f : PageState -> PageState) : Prop :=
  forall s,
    ConfirmationModal.isOpen (confirmationModal (f s)) = true ->
    ConfirmationModal.isOpen (confirmationModal s) = true.

(** A service call other than [deleteOfficerEvent]. *)
Definition not_delete (c : ServiceCall) : Prop :=
  is_delete (Service c) = false.

(** A handler that neither opens the confirmation modal nor archives. *)
Definition quiet : Prog PageState -> Prop := all_steps keeps_closed not_delete.

(** The pending handlers of a machine are all quiet from here on. *)
Definition settled_down (m : Machine PageState) : Prop :=
  Forall (all_next keeps_closed not_delete) (pending m).

(** The user clicked Archive on some card and, later, the confirm button
    of the confirmation modal. *)
Definition confirmed (evs : list Event) : Prop :=
  exists before after id,
    evs = before ++ Ui ClickConfirm :: after
    /\ In (Ui (ClickArchive id)) before.

(** What holds of the machine after the events [evs]: the pending
    handlers are quiet, an open confirmation modal was opened by an
    Archive click, and every archive request was confirmed. *)
Definition archive_invariant (evs : list Event) (m : Machine PageState)
    : Prop :=
  settled_down m
  /\ (ConfirmationModal.isOpen (confirmationModal (state (world m))) = true ->
      exists id, In (Ui (ClickArchive id)) evs)
  /\ (forall r, In r (requests (world m)) -> is_delete r = true ->
      confirmed evs).

(** Request failures, as the handlers of this page tell them apart. *)
Definition failed (reply : Reply) : bool :=
  match reply with
  | ServiceReply (Rejected _) | HttpReply (Rejected _) => true
  | ServiceReply (Fulfilled _) => false
  | HttpReply (Fulfilled res) => negb (ok res)
  end.

(** The ways the participants request can fail: the [fetch] promise is
    rejected, the response is not [ok], or its body cannot be read. *)
Definition participants_fetch_fails (reply : Settled HttpResponse) : bool :=
  match reply with
  | Rejected _ => true
  | Fulfilled res =>
      if ok res
      then match json res with
           | Rejected _ => true
           | Fulfilled _ => false
           end
      else true
  end.

(** A 401 / invalid-token failure: a service rejection whose message
    passes the [authFailed] test, or an HTTP response with status 401. *)
Definition unauthorized (reply : Reply) : bool :=
  match reply with
  | ServiceReply (Rejected m) => authFailed m
  | ServiceReply (Fulfilled _) | HttpReply (Rejected _) => false
  | HttpReply (Fulfilled res) => (status res =? 401)%Z
  end.

End OfficerManageEventsPage.

(** ** ProfilePage *)

Module ProfilePage.

Module ModalState.
Record t : Type := mk {
  isOpen : bool;
  type : string;
  title : string;
  message : string;
}.
End ModalState.

Record PageState : Type := mkState {
  user : JsVal;
  isLoading : bool;
  modalState : ModalState.t;
}.

Definition initialState : PageState := {|
  user := JNull;
  isLoading := true;
  modalState := ModalState.mk false "success" "" "";
|}.

Definition setUser (v : JsVal) (s : PageState) : PageState :=
  mkState v (isLoading s) (modalState s).

Definition setIsLoading (v : bool) (s : PageState) : PageState :=
  mkState (user s) v (modalState s).

Definition setModalState (v : ModalState.t) (s : PageState) : PageState :=
  mkState (user s) (isLoading s) v.

(** The statements shared by the token check and the [catch] block of
    [fetchProfile]. *)
Definition logout : Prog PageState :=
  RemoveItem "access_token"
    (RemoveItem "user_id"
       (Navigate "/" Done)).

(** First effect: the early token check. *)
Definition tokenCheck (token : Token) : Prog PageState :=
  if negb (present token) then logout else Done.

(** Second effect: [fetchProfile]. *)
Definition fetchProfile (token : Token) : Prog PageState :=
  if negb (present token) then Done else
  finally
    (try_catch
       (await (getProfile token) (fun userData =>
          SetState (setUser userData) Done))
       (fun _ => logout))
    (SetState (setIsLoading false) Done).

Definition handleUpdateProfile (token : Token)
    (updatedData : gmap string JsVal) : Prog PageState :=
  try_catch
    (await (updateProfile token updatedData) (fun updatedUser =>
       SetState (setUser updatedUser)
         (SetState (setModalState
            (ModalState.mk true "success" "Profile Updated"
               "Your profile has been successfully updated.")) Done)))
    (fun _ =>
       SetState (setModalState
         (ModalState.mk true "error" "Profile Update Failed"
            "Failed to update profile. Please try again.")) Done).

(** [closeModal] in a render whose state cell is [modalState]. *)
Definition closeModal (modalState : ModalState.t) : Prog PageState :=
  SetState (setModalState
    (ModalState.mk false (ModalState.type modalState)
       (ModalState.title modalState) (ModalState.message modalState))) Done.

(** A browser holding the credentials of a logged-in user, before the
    page is mounted. *)
Definition loggedIn (token userId : string) : World PageState :=
  mkWorld initialState
    (<["access_token" := token]> (<["user_id" := userId]> ∅)) [] [] [] [].

End ProfilePage.

(** ** ProfileCard *)

Module ProfileCard.

(** The form controls wired to [handleInputChange]; [student_number] and
    [email] are rendered as text. *)
Inductive Control : Type := FullNameInput | YearSelect | BlockSelect.

(** The [name] attribute of a control. *)
Definition name (c : Control) : string :=
  match c with
  | FullNameInput => "full_name"
  | YearSelect => "year"
  | BlockSelect => "block"
  end.

(** The component: its [user] prop, its two state cells, and the
    arguments [onUpdate] has been called with. *)
Record Card : Type := mkCard {
  user : JsVal;
  isEditing : bool;
  formData : gmap string JsVal;
  submitted : list (gmap string JsVal);
}.

(** [{ full_name: user.full_name, year: user.year, block: user.block }].
    [ProfilePage] renders the card only with a truthy [user]
    ([if (!user) return null]); a field the user lacks reads as
    [undefined]. *)
Definition editable (user : JsVal) : gmap string JsVal :=
  <["block" := get user "block"]>
    (<["year" := get user "year"]>
       (<["full_name" := get user "full_name"]> ∅)).

Definition initial (user : JsVal) : Card :=
  mkCard user false (editable user) [].

(** [handleInputChange(e)] with [e.target] the input named [name] holding
    [value]. *)
Definition handleInputChange (name value : string) (c : Card) : Card :=
  mkCard (user c) (isEditing c) (<[name := JStr value]> (formData c))
    (submitted c).

Definition handleSubmit (c : Card) : Card :=
  mkCard (user c) false (formData c) (submitted c ++ [formData c]).

Definition toggleEdit (c : Card) : Card :=
  mkCard (user c) (negb (isEditing c)) (editable (user c)) (submitted c).

Inductive Event : Type :=
| Change (control : Control) (value : string)
| Submit
| ToggleEdit
| Rerender (user : JsVal).

(** The form, with its inputs and its Save button, is rendered only while
    editing; Edit and Cancel both call [toggleEdit]; the parent may pass
    a new [user] at any time. *)
Definition step (c : Card) (e : Event) : Card :=
  match e with
  | Change control value =>
      if isEditing c then handleInputChange (name control) value c else c
  | Submit => if isEditing c then handleSubmit c else c
  | ToggleEdit => toggleEdit c
  | Rerender u => mkCard u (isEditing c) (formData c) (submitted c)
  end.

Definition run (evs : list Event) (c : Card) : Card := fold_left step evs c.

(** The keys of the update payload. *)
Definition editable_fields : gset string := {["full_name"; "year"; "block"]}.

(** The form data, and every payload submitted so far, have exactly the
    editable fields. *)
Definition well_formed (c : Card) : Prop :=
  dom (formData c) = editable_fields
  /\ Forall (fun payload => dom payload = editable_fields) (submitted c).

End ProfileCard.

(** ** A concrete browser session, used to exercise the handlers *)

Module Scenario.

Definition API_URL : string := "http://localhost:8000".

(** A parser that understands the two documents the session stores. *)
Definition JSON_parse (s : string) : Settled JsVal :=
  if String.eqb s "null" then Fulfilled JNull
  else if String.eqb s "{}" then Fulfilled (JObj [])
  else Rejected "Unexpected token".

Definition token : string := "eyJhbGciOiJIUzI1NiJ9".

Definition assembly : JsVal :=
  JObj [("id", JNum 7); ("title", JStr "General Assembly");
        ("location", JStr "Gymnasium"); ("participant_count", JNum 120)].

(** The officer page once its events are loaded, with the approval modal
    open on the assembly. *)
Definition loaded : OfficerManageEventsPage.PageState :=
  OfficerManageEventsPage.setApprovalModal
    (OfficerManageEventsPage.ApprovalModal.mk true (JNum 7))
    (OfficerManageEventsPage.setIsLoading false
       (OfficerManageEventsPage.setEvents (JArr [assembly])
          (OfficerManageEventsPage.setOfficer (JObj [])
             OfficerManageEventsPage.initialState))).

Definition officer_world : World OfficerManageEventsPage.PageState :=
  OfficerManageEventsPage.browsing token "{}" loaded.

(** The backend answers every [fetch] with status [code] and no readable
    body, and rejects every service call with [message]. *)
Definition answering (code : Z) (message : string) : Backend :=
  always (Rejected message) (Fulfilled (mkHttpResponse code (Rejected ""))).

(** The backend accepts every service call, returning [v]. *)
Definition accepting (v : JsVal) : Backend :=
  always (Fulfilled v) (Fulfilled (mkHttpResponse 200 (Fulfilled v))).

Definition student : JsVal :=
  JObj [("student_number", JStr "2021-00123"); ("full_name", JStr "Ana Cruz");
        ("year", JStr "3rd Year"); ("block", JStr "B");
        ("email", JStr "ana.cruz@example.edu")].

Definition student_world : World ProfilePage.PageState :=
  ProfilePage.loggedIn token "42".

(** The officer page is mounted, its events arrive, the officer clicks
    Archive on the assembly and confirms. *)
Definition archiving : list OfficerManageEventsPage.Event :=
  [OfficerManageEventsPage.Settle 0
     (ServiceReply (Fulfilled (JArr [assembly])));
   OfficerManageEventsPage.Ui
     (OfficerManageEventsPage.ClickArchive (JNum 7));
   OfficerManageEventsPage.Ui OfficerManageEventsPage.ClickConfirm].

Definition officer_storage : gmap string string :=
  <["officerAccessToken" := token]> (<["officerInfo" := "{}"]> ∅).

End Scenario.

(** ** Requests and their tokens *)

(** The token a service call is made with. *)
Definition call_token (c : ServiceCall) : Token :=
  match c with
  | getOfficerEvents token _ => token
  | createOfficerEvent _ token => token
  | updateOfficerEvent _ _ token => token
  | deleteOfficerEvent _ token => token
  | getProfile token => token
  | updateProfile token _ => token
  end.

(** A request made on behalf of a logged-in user: a service call with a
    non-empty token, or a [fetch] whose [Authorization] header is built
    from one. *)
Definition authenticated (r : Request) : Prop :=
  match r with
  | Service c => present (call_token c) = true
  | Http i =>
      exists token,
        present (Some token) = true /\ authorization i = bearer (Some token)
  end.

(** Every state update of [p] satisfies [PS] and every request it can
    issue satisfies [PR], whatever the backend answers. *)
Inductive every_effect {S : Type} (PS : (S -> S) -> Prop)
    (PR : Request -> Prop) : Prog S -> Prop :=
| every_Done : every_effect PS PR Done
| every_Throw m : every_effect PS PR (Throw m)
| every_SetState f k :
    PS f -> every_effect PS PR k -> every_effect PS PR (SetState f k)
| every_GetItem key k :
    (forall v, every_effect PS PR (k v)) -> every_effect PS PR (GetItem key k)
| every_RemoveItem key k :
    every_effect PS PR k -> every_effect PS PR (RemoveItem key k)
| every_Navigate path k :
    every_effect PS PR k -> every_effect PS PR (Navigate path k)
| every_Call c k :
    PR (Service c) -> (forall r, every_effect PS PR (k r)) ->
    every_effect PS PR (Call c k)
| every_Fetch r k :
    PR (Http r) -> (forall x, every_effect PS PR (k x)) ->
    every_effect PS PR (Fetch r k).

(** The same, for what a suspended handler does once its request has
    settled. *)
Definition every_next {S : Type} (PS : (S -> S) -> Prop)
    (PR : Request -> Prop) (p : Prog S) : Prop :=
  forall reply r k, resume p reply = Some (r, k) -> every_effect PS PR k.

(** The [confirmArchive] stored in the confirmation modal, if any, was
    created with a token. *)
Definition closure_has_token (s : OfficerManageEventsPage.PageState)
    : Prop :=
  forall c,
    OfficerManageEventsPage.ConfirmationModal.onConfirm
      (OfficerManageEventsPage.confirmationModal s) = Some c ->
    present (OfficerManageEventsPage.closure_token c) = true.

(** A state update that keeps it so. *)
Definition keeps_token (f : OfficerManageEventsPage.PageState ->
                            OfficerManageEventsPage.PageState) : Prop :=
  forall s, closure_has_token s -> closure_has_token (f s).

(** What holds of the officer page throughout a run: the stored closure
    has a token, every request issued so far was authenticated, and so
    will be those of the handlers that are waiting. *)
Definition token_invariant (m : Machine OfficerManageEventsPage.PageState)
    : Prop :=
  closure_has_token (state (world m))
  /\ Forall authenticated (requests (world m))
  /\ Forall (every_next keeps_token authenticated) (pending m).

(** ** OfficerManageEventsPage: events that are no objects *)

(** [null] and [undefined]: the values a property cannot be read of. *)
Definition nullish (v : JsVal) : bool :=
  match v with
  | JUndefined | JNull => true
  | _ => false
  end.

(** ** OfficerManageEventsPage: the stored officer record *)

(** [storedOfficer ? JSON.parse(storedOfficer) : null] on the record
    stored in [w], with the host's parser. *)
Definition stored_officer (JSON_parse : string -> Settled JsVal)
    (w : World OfficerManageEventsPage.PageState) : Settled JsVal :=
  let storedOfficer := localStorage w !! "officerInfo" in
  if present storedOfficer
  then JSON_parse (default "" storedOfficer)
  else Fulfilled JNull.

(** A page that has been mounted in a browser holding an officer session
    and has received its events: the body is rendered. *)
Definition loaded_page (API_URL : string)
    (JSON_parse : string -> Settled JsVal) (storage : gmap string string)
    (eventsData : JsVal) : Machine OfficerManageEventsPage.PageState :=
  OfficerManageEventsPage.run API_URL JSON_parse
    [OfficerManageEventsPage.Settle 0 (ServiceReply (Fulfilled eventsData))]
    (OfficerManageEventsPage.mount JSON_parse storage).

(** ** ProfilePage: the effects of mounting *)

(** Both effects of [ProfilePage], in order. *)
Definition profile_mount (token : Token) : Prog ProfilePage.PageState :=
  seq (ProfilePage.tokenCheck token) (ProfilePage.fetchProfile token).

(** ** ProfileCard: kinds of events *)

(** The user typed or selected something in the form. *)
Definition is_change (e : ProfileCard.Event) : bool :=
  match e with
  | ProfileCard.Change _ _ => true
  | _ => false
  end.

(** * Properties *)

Example includes_401 :
  includes "Error: HTTP error! status: 401" "HTTP error! status: 401" = true.
Proof. reflexivity. Qed.

Example toString_num : toString (JNum (-42)) = "-42" /\ toString (JNum 0) = "0".
Proof. split; reflexivity. Qed.

Arguments OfficerManageEventsPage.authFailed : simpl never.
Arguments truthy : simpl never.
Arguments ok : simpl never.
Arguments bearer : simpl never.
Arguments present : simpl never.
Arguments or_else : simpl never.
Arguments toString : simpl never.
Arguments includes : simpl never.
Arguments string_of_Z : simpl never.

(** ** Handlers as trees of effects *)

Section EffectLemmas.

Context {S : Type}.
Variables (PS : (S -> S) -> Prop) (PC : ServiceCall -> Prop).

Lemma all_steps_seq (p q : Prog S) :
  all_steps PS PC p -> all_steps PS PC q -> all_steps PS PC (seq p q).
Proof. induction 1; intros Hq; cbn; try constructor; auto. Qed.

Lemma all_steps_try_catch (p : Prog S) (h : string -> Prog S) :
  all_steps PS PC p -> (forall m, all_steps PS PC (h m)) ->
  all_steps PS PC (try_catch p h).
Proof. induction 1; intros Hh; cbn; try constructor; auto. Qed.

Lemma all_steps_finally (p q : Prog S) :
  all_steps PS PC p -> all_steps PS PC q -> all_steps PS PC (finally p q).
Proof.
  induction 1; intros Hq; cbn; try constructor; auto.
  apply all_steps_seq; [assumption | constructor].
Qed.

Lemma all_steps_await (c : ServiceCall) (k : JsVal -> Prog S) :
  PC c -> (forall v, all_steps PS PC (k v)) -> all_steps PS PC (await c k).
Proof. intros Hc Hk. constructor; [assumption|]. intros [v|m]; [auto | constructor]. Qed.

Lemma all_steps_await_fetch (r : FetchInit) (k : HttpResponse -> Prog S) :
  (forall res, all_steps PS PC (k res)) -> all_steps PS PC (await_fetch r k).
Proof. intros Hk. constructor. intros [v|m]; [auto | constructor]. Qed.

(** What a handler does before it first awaits, when all its steps are
    as [PS] and [PC] say: it issues at most one request, a [Service]
    request only for a call satisfying [PC]; every property of the state
    that the [PS] updates preserve still holds; and what it will do next
    is again as [PS] and [PC] say. *)
Lemma advance_all_steps (I : S -> Prop) (p : Prog S) :
  all_steps PS PC p ->
  (forall f s, PS f -> I (f s) -> I s) ->
  forall w w' o,
    advance p w = (w', o) ->
    (requests w' = requests w
     \/ (exists i, requests w' = requests w ++ [Http i])
     \/ (exists c, PC c /\ requests w' = requests w ++ [Service c]))
    /\ (I (state w') -> I (state w))
    /\ (forall waiting, o = Some waiting -> all_next PS PC waiting).
Proof.
  intros Hp HI. induction Hp; intros w w' o Hadv; cbn in Hadv.
  - injection Hadv as <- <-. repeat split; [now left | auto | discriminate].
  - injection Hadv as <- <-. repeat split; [now left | auto | discriminate].
  - destruct (IHHp _ _ _ Hadv) as (Hr & Hs & Hw).
    repeat split; [exact Hr | | exact Hw]. intros Hi. apply Hs in Hi. cbn in Hi. eauto.
  - eapply H0; eassumption.
  - apply (IHHp _ _ _ Hadv).
  - apply (IHHp _ _ _ Hadv).
  - injection Hadv as <- <-. repeat split; [right; right; eauto | auto |].
    intros waiting [= <-] reply r k' Hres. destruct reply; cbn in Hres; [|discriminate].
    injection Hres as <- <-. apply H0.
  - injection Hadv as <- <-. repeat split; [right; left; eauto | auto |].
    intros waiting [= <-] reply r' k' Hres. destruct reply; cbn in Hres; [discriminate|].
    injection Hres as <- <-. apply H.
Qed.

(** Running to completion is advancing to the first [await], taking the
    backend's answer, and running what is left to completion. *)
Lemma exec_advance (b : Backend) (p : Prog S) (w : World S) :
  exec b p w
  = match advance p w with
    | (w', None) => w'
    | (w', Some waiting) =>
        let reply := answer b (pred (length (requests w'))) waiting in
        match resume waiting reply with
        | Some (r, k) => exec b k (receive r reply w')
        | None => w'
        end
    end.
Proof.
  revert w; induction p as [ | m | f k IH | key k IH | key k IH | path k IH
                           | c k _ | r k _ ]; intros w; cbn; auto.
  - rewrite length_app, Nat.add_1_r. reflexivity.
  - rewrite length_app, Nat.add_1_r. reflexivity.
Qed.

End EffectLemmas.

(** ** OfficerManageEventsPage: what each handler does with a reply *)

Lemma ok_unauthorized (res : HttpResponse) :
  (status res =? 401)%Z = true -> ok res = false.
Proof. unfold ok. intros H%Z.eqb_eq. rewrite H. reflexivity. Qed.

Section OfficerEvents.

Import OfficerManageEventsPage.

Variable API_URL : string.
Variable JSON_parse : string -> Settled JsVal.

(** Case analysis on the next thing a running handler inspects. *)
Ltac fork :=
  match goal with
  | |- context [match service ?b ?n ?c with _ => _ end] =>
      destruct (service b n c) eqn:?
  | |- context [match http ?b ?n ?c with _ => _ end] =>
      destruct (http b n c) eqn:?
  | |- context [if negb ?c || negb ?d then _ else _] =>
      destruct c eqn:?, d eqn:?
  | |- context [if negb ?c then _ else _] => destruct c eqn:?
  | |- context [if ?c then _ else _] => destruct c eqn:?
  | |- context [match json ?r with _ => _ end] => destruct (json r) eqn:?
  | |- context [match JSON_parse ?r with _ => _ end] =>
      destruct (JSON_parse r) eqn:?
  | |- context [property ?o _ _] => destruct o eqn:?; unfold property
  | |- context [match ConfirmationModal.onConfirm ?c with _ => _ end] =>
      destruct (ConfirmationModal.onConfirm c) eqn:?
  | |- context [exec _ (match ?t with Some _ => _ | None => _ end)] =>
      destruct t eqn:?
  end.

Ltac forks := cbn; repeat (fork; cbn).

Ltac unfold_handlers :=
  unfold handle, handleAddNewEvent, handleEdit, handleApproveEvent,
    handleApprovalSubmit, handleArchive, confirmArchive,
    handleCloseConfirmationModal, handleDetails, handleParticipants,
    handleCloseEventModal, handleCloseDetailsModal,
    handleCloseParticipantsModal, handleCloseStatusModal, handleSave,
    toggleArchived, fetchData, authCheck, json_or_empty, exchanges,
    approve_request, participants_request.

Ltac settled_since :=
  rewrite <- ?app_assoc, ?drop_app_length, ?drop_all; cbn.

Ltac pick_exchange :=
  repeat match goal with
         | H : _ \/ _ |- _ => destruct H
         | H : False |- _ => destruct H
         | H : (_, _) = (_, _) |- _ => injection H as <- <-
         end;
  cbn in *.

Ltac absurd_reply :=
  try congruence;
  try match goal with
      | H : ok ?r = true, H' : negb (ok ?r) = true |- _ =>
          rewrite H in H'; discriminate
      end;
  try match goal with
      | H : (status ?r =? 401)%Z = true, H' : ok ?r = true |- _ =>
          rewrite (ok_unauthorized r H) in H'; discriminate
      end.

(** Any failure other than a 401 / invalid-token one, in any handler of
    the page: an error dialog, and the session is left alone. *)
Lemma officer_failure_shows_error (e : UiEvent) (b : Backend)
    (w : World PageState) :
  let w' := exec b (handle API_URL JSON_parse w e) w in
  forall req reply,
    In (req, reply) (exchanges w w') ->
    failed reply = true -> unauthorized reply = false ->
    error_dialog_only w w'.
Proof.
  intros w'; subst w'. unfold error_dialog_only.
  destruct e; unfold_handlers; forks; settled_since;
    intros req reply Hin Hf Hu; pick_exchange; absurd_reply;
    repeat split; reflexivity.
Qed.

Lemma fetchData_failure_shows_error (token : Token) (showArchived : bool)
    (b : Backend) (w : World PageState) :
  let w' := exec b (fetchData JSON_parse token showArchived) w in
  forall req reply,
    In (req, reply) (exchanges w w') ->
    failed reply = true -> unauthorized reply = false ->
    error_dialog_only w w'.
Proof.
  intros w'; subst w'. unfold error_dialog_only.
  unfold_handlers; forks; settled_since;
    intros req reply Hin Hf Hu; pick_exchange; absurd_reply;
    repeat split; reflexivity.
Qed.

(** The participants request, in each way it can fail other than by a
    401 response, a response whose body cannot be read included: the
    error dialog, and the session is left alone. *)
Lemma participants_failure_shows_error (b : Backend) (w : World PageState)
    (token : string) (event : JsVal) :
  let request := participants_request API_URL (Some token) event in
  let reply := http b (length (requests w)) request in
  let w' := exec b (handleParticipants API_URL (Some token) event) w in
  truthy (get event "id") = true ->
  participants_fetch_fails reply = true ->
  unauthorized (HttpReply reply) = false ->
  error_dialog_only w w'
  /\ statusModal (state w')
     = StatusModal.mk true "Error"
         "Failed to load participants. Please try again later." "error".
Proof.
  intros request reply w' Hid Hfail Hu. subst w' reply request.
  unfold error_dialog_only. revert Hfail Hu. unfold_handlers. rewrite Hid.
  forks; intros Hfail Hu; cbn in *; absurd_reply; repeat split; reflexivity.
Qed.

(** A 401 / invalid-token failure logs the officer out, in every handler
    of the page; the one exception is the list refresh that follows a
    successful approval, whose rejection is reported like any other. *)
Lemma officer_unauthorized_logs_out (e : UiEvent) (b : Backend)
    (w : World PageState) :
  let w' := exec b (handle API_URL JSON_parse w e) w in
  forall req reply,
    In (req, reply) (exchanges w w') ->
    unauthorized reply = true ->
    match e, req with
    | SubmitApproval _ _, Service _ => False
    | _, _ => True
    end ->
    logged_out w w'.
Proof.
  intros w'; subst w'. unfold logged_out.
  destruct e; unfold_handlers; forks; settled_since;
    intros req reply Hin Hu Hex; pick_exchange; absurd_reply;
    try contradiction; repeat split; reflexivity.
Qed.

Lemma fetchData_unauthorized_logs_out (token : Token) (showArchived : bool)
    (b : Backend) (w : World PageState) :
  let w' := exec b (fetchData JSON_parse token showArchived) w in
  forall req reply,
    In (req, reply) (exchanges w w') ->
    unauthorized reply = true ->
    logged_out w w'.
Proof.
  intros w'; subst w'. unfold logged_out.
  unfold_handlers; forks; settled_since;
    intros req reply Hin Hu; pick_exchange; absurd_reply;
    repeat split; reflexivity.
Qed.

(** C3. When the create, update or archive call succeeds, the handler's
    next request is [getOfficerEvents] with its token and archived flag,
    and the list it is fulfilled with becomes the event list. *)
Theorem successful_mutation_refetches_events (b : Backend)
    (w : World PageState) :
  let n := length (requests w) in
  (forall token showArchived formData eventId v,
      let mutation := save_call token formData eventId in
      let refetch := getOfficerEvents token showArchived in
      let w' := exec b (handleSave token showArchived formData eventId) w in
      service b n mutation = Fulfilled v ->
      requests w' = requests w ++ [Service mutation; Service refetch]
      /\ forall updated,
           service b (S n) refetch = Fulfilled updated ->
           events (state w') = updated)
  /\ (forall c v,
      let mutation := deleteOfficerEvent (closure_eventId c) (closure_token c) in
      let refetch :=
        getOfficerEvents (closure_token c) (closure_showArchived c) in
      let w' := exec b (confirmArchive c) w in
      service b n mutation = Fulfilled v ->
      requests w' = requests w ++ [Service mutation; Service refetch]
      /\ forall updated,
           service b (S n) refetch = Fulfilled updated ->
           events (state w') = updated).
Proof.
  intros n; subst n; split.
  - intros token showArchived formData eventId v mutation refetch w' Hm.
    subst w' mutation refetch. unfold save_call in *. unfold_handlers.
    destruct (truthy eventId); cbn; rewrite Hm; cbn;
      rewrite length_app, Nat.add_1_r; cbn [length];
      forks; rewrite <- ?app_assoc; (split; [reflexivity|]);
      intros updated Hu; congruence.
  - intros c v mutation refetch w' Hm. subst w' mutation refetch.
    unfold_handlers. cbn. rewrite Hm; cbn.
    rewrite length_app, Nat.add_1_r; cbn [length].
    forks; rewrite <- ?app_assoc; (split; [reflexivity|]);
      intros updated Hu; congruence.
Qed.

(** The handlers the latest render passes to the event modal and stores
    in the confirmation modal use that render's token and archived
    flag; the stored [confirmArchive] also reads that render's
    [confirmationModal.eventId]. *)
Lemma handlers_close_over_render (w : World PageState)
    (formData eventId : JsVal) :
  handle API_URL JSON_parse w (SaveEvent formData eventId)
  = handleSave (render_token w) (showArchived (state w)) formData eventId
  /\ handle API_URL JSON_parse w (ClickArchive eventId)
     = SetState (setConfirmationModal
         (ConfirmationModal.mk true "Archive Event"
            "Are you sure you want to archive this event? This action will move the event to archived status."
            (Some (mkClosure
                     (ConfirmationModal.eventId (confirmationModal (state w)))
                     (render_token w) (showArchived (state w))))
            eventId false)) Done.
Proof. split; reflexivity. Qed.

(** C4, as amended.  When the participants request fails for any reason
    other than a 401 response, the participants modal is opened on the
    empty list; on a 401 response the officer is logged out instead, and
    neither the modal nor the list is touched. *)
Theorem failed_participants_fetch_opens_empty_modal (b : Backend)
    (w : World PageState) (token : string) (event : JsVal) :
  let request := participants_request API_URL (Some token) event in
  let reply := http b (length (requests w)) request in
  let w' := exec b (handleParticipants API_URL (Some token) event) w in
  truthy (get event "id") = true ->
  participants_fetch_fails reply = true ->
  requests w' = requests w ++ [Http request]
  /\ (unauthorized (HttpReply reply) = false ->
      showParticipantsModal (state w') = true
      /\ participants (state w') = JArr [])
  /\ (unauthorized (HttpReply reply) = true ->
      logged_out w w'
      /\ showParticipantsModal (state w') = showParticipantsModal (state w)
      /\ participants (state w') = participants (state w)).
Proof.
  intros request reply w' Hid Hfail. subst w' reply request.
  unfold logged_out. revert Hfail. unfold_handlers. rewrite Hid.
  forks; intros Hfail; cbn in *; absurd_reply;
    (split; [reflexivity|]); split; intros Hu; absurd_reply;
    repeat split; reflexivity.
Qed.

(** C6, as amended.  A submission of the approval modal for an event id:
    a decline makes no request and reports the decline (with the reason
    when one is given) in an error-type status modal; anything else posts
    to the event's approve endpoint, and then shows the success modal
    when the approval and the list refresh both succeed, an error modal
    when either fails, and no modal at all on a 401 response, which logs
    the officer out.  Without an event id the modal is only closed. *)
Theorem approval_submission (b : Backend) (w : World PageState)
    (action : string) (reason : option string) :
  let token := render_token w in
  let eventId := ApprovalModal.eventId (approvalModal (state w)) in
  let n := length (requests w) in
  let request := approve_request API_URL token eventId in
  let refetch := getOfficerEvents token (showArchived (state w)) in
  let w' :=
    exec b (handle API_URL JSON_parse w (SubmitApproval action reason)) w in
  let shown := statusModal (state w') in
  (truthy eventId = false ->
     requests w' = requests w
     /\ shown = statusModal (state w)
     /\ approvalModal (state w') = ApprovalModal.mk false JNull)
  /\ (truthy eventId = true -> action = "decline" ->
      requests w' = requests w
      /\ shown = StatusModal.mk true "Event Declined"
                   (decline_message reason) "error")
  /\ (truthy eventId = true -> action <> "decline" ->
      (exists rest, requests w' = requests w ++ Http request :: rest)
      /\ match http b n request with
         | Rejected _ =>
             StatusModal.isOpen shown = true
             /\ StatusModal.type shown = "error"
         | Fulfilled response =>
             if ok response then
               match service b (S n) refetch with
               | Fulfilled updated =>
                   shown = StatusModal.mk true "Event Approved"
                             "The event plan has been successfully approved."
                             "success"
                   /\ events (state w') = updated
               | Rejected _ =>
                   StatusModal.isOpen shown = true
                   /\ StatusModal.type shown = "error"
               end
             else if (status response =? 401)%Z then
               shown = statusModal (state w) /\ logged_out w w'
             else
               StatusModal.isOpen shown = true
               /\ StatusModal.type shown = "error"
         end).
Proof.
  intros token eventId n request refetch w' shown.
  subst shown w' refetch request n eventId token.
  unfold logged_out, decline_message. split; [|split].
  - intros Hid. unfold_handlers. rewrite Hid. repeat split.
  - intros Hid ->. unfold_handlers. rewrite Hid. cbn. split; [reflexivity|].
    unfold present. destruct reason as [r|]; [|reflexivity].
    destruct (String.eqb r ""); reflexivity.
  - intros Hid Haction%String.eqb_neq. unfold_handlers.
    rewrite Hid, Haction. cbn. split.
    + forks; rewrite <- ?app_assoc; eauto.
    + destruct (http b _ _) as [response|m]; cbn; [|split; reflexivity].
      destruct (ok response) eqn:Hok; cbn.
      * rewrite length_app, Nat.add_1_r; cbn [length].
        forks; repeat split; reflexivity.
      * forks; repeat split; reflexivity.
Qed.

(** *** The confirmation modal *)

Local Abbreviation confirmation m := (confirmationModal (state (world m))).

Lemma start_Done {S} (m : Machine S) : start Done m = m.
Proof. destruct m; reflexivity. Qed.

(** C10. While the confirmation modal's [isLoading] flag is set, its
    close handler changes nothing, so the handler can take an open modal
    down only when the flag is clear; and the flag is set from the moment
    the confirm action issues the archive request. *)
Theorem confirmation_modal_stays_open_while_loading
    (m : Machine PageState) :
  let close := step API_URL JSON_parse m (Ui CloseConfirmationModal) in
  let confirm := step API_URL JSON_parse m (Ui ClickConfirm) in
  (ConfirmationModal.isLoading (confirmation m) = true -> close = m)
  /\ (ConfirmationModal.isOpen (confirmation m) = true ->
      ConfirmationModal.isOpen (confirmation close) = false ->
      ConfirmationModal.isLoading (confirmation m) = false)
  /\ (forall c,
        enabled (world m) ClickConfirm = true ->
        ConfirmationModal.onConfirm (confirmation m) = Some c ->
        requests (world confirm)
        = requests (world m)
          ++ [Service (deleteOfficerEvent (closure_eventId c)
                         (closure_token c))]
        /\ settled (world confirm) = settled (world m)
        /\ ConfirmationModal.isLoading (confirmation confirm) = true
        /\ ConfirmationModal.isOpen (confirmation confirm) = true
        /\ step API_URL JSON_parse confirm (Ui CloseConfirmationModal)
           = confirm).
Proof.
  intros close confirm. subst close confirm. split; [|split].
  - intros Hl. cbn. destruct (enabled _ _); [|reflexivity].
    unfold handle, handleCloseConfirmationModal. rewrite Hl. apply start_Done.
  - intros Ho Hc. revert Hc. cbn. destruct (enabled _ _); [|congruence].
    unfold handle, handleCloseConfirmationModal.
    destruct (ConfirmationModal.isLoading _); [|reflexivity].
    cbn [negb]. rewrite start_Done. congruence.
  - intros c Hen Hc. cbn [step]. rewrite Hen. unfold handle.
    rewrite Hc. repeat split.
    + cbn. unfold enabled in Hen. apply andb_prop in Hen as [_ Hen].
      exact Hen.
    + clear Hen. cbn.
      match goal with |- (if ?c then _ else _) = _ => destruct c end;
        reflexivity.
Qed.

(** *** Archiving needs a confirmation *)

Lemma keeps_closed_frame (f : PageState -> PageState) :
  (forall s, confirmationModal (f s) = confirmationModal s) ->
  keeps_closed f.
Proof. intros Hf s. now rewrite Hf. Qed.

Ltac quiet_update :=
  first
    [ apply keeps_closed_frame; intros []; reflexivity
    | intros [] ; cbn; congruence ].

Ltac quiet_steps :=
  repeat first
    [ apply all_steps_try_catch; [|intros ?]
    | apply all_steps_finally
    | apply all_steps_seq
    | apply all_steps_await; [reflexivity | intros ?]
    | apply all_steps_await_fetch; intros ?
    | apply all_Done
    | apply all_Throw
    | apply all_SetState; [quiet_update|]
    | apply all_GetItem; intros ?
    | apply all_RemoveItem
    | apply all_Navigate
    | match goal with
      | |- all_steps _ _ (property ?o _ _) => unfold property; destruct o
      | |- all_steps _ _ (if ?c then _ else _) => destruct c
      | |- all_steps _ _ (match ?c with _ => _ end) => destruct c
      end ].

Lemma quiet_fetchData (token : Token) (showArchived : bool) :
  quiet (fetchData JSON_parse token showArchived).
Proof. unfold quiet, fetchData, logout. quiet_steps. Qed.

Lemma quiet_mount (token : Token) :
  quiet (seq (authCheck token) (fetchData JSON_parse token false)).
Proof.
  apply all_steps_seq; [|apply quiet_fetchData].
  unfold authCheck, logout. quiet_steps.
Qed.

Lemma quiet_handle (w : World PageState) (e : UiEvent) :
  (forall id, e <> ClickArchive id) -> e <> ClickConfirm ->
  quiet (handle API_URL JSON_parse w e).
Proof.
  intros Harchive Hconfirm.
  destruct e; try congruence; try (now destruct (Harchive eventId));
    try (apply all_steps_seq; [|apply quiet_fetchData]);
    unfold quiet, handle, handleAddNewEvent, handleEdit, handleApproveEvent,
      handleApprovalSubmit, handleCloseConfirmationModal, handleDetails,
      handleParticipants, handleCloseEventModal, handleCloseDetailsModal,
      handleCloseParticipantsModal, handleCloseStatusModal, handleSave,
      toggleArchived, logout, closeApprovalModal;
    quiet_steps.
Qed.

(** Once [confirmArchive] has issued its request, what remains of it is
    quiet. *)
Lemma confirmArchive_then_quiet (c : ArchiveClosure) (w : World PageState) :
  exists w' waiting,
    advance (confirmArchive c) w = (w', Some waiting)
    /\ requests w'
       = requests w
         ++ [Service (deleteOfficerEvent (closure_eventId c) (closure_token c))]
    /\ ConfirmationModal.isOpen (confirmationModal (state w'))
       = ConfirmationModal.isOpen (confirmationModal (state w))
    /\ all_next keeps_closed not_delete waiting.
Proof.
  eexists _, _. split; [reflexivity|]. repeat split.
  intros [r|r] req k Hres; cbn in Hres; [|discriminate].
  injection Hres as <- <-. unfold logout. quiet_steps.
Qed.

Lemma start_quiet (p : Prog PageState) (m : Machine PageState) :
  quiet p -> settled_down m ->
  let m' := start p m in
  settled_down m'
  /\ Forall (fun r => is_delete r = false)
       (drop (length (requests (world m))) (requests (world m')))
  /\ (ConfirmationModal.isOpen (confirmation m') = true ->
      ConfirmationModal.isOpen (confirmation m) = true).
Proof.
  intros Hp Hm m'. subst m'. unfold start.
  destruct (advance p (world m)) as [w' o] eqn:Hadv.
  destruct (advance_all_steps keeps_closed not_delete
              (fun s => ConfirmationModal.isOpen (confirmationModal s) = true)
              p Hp (fun f s Hf => Hf s) _ _ _ Hadv) as (Hr & Hs & Hw).
  assert (Hreq : Forall (fun r => is_delete r = false)
                   (drop (length (requests (world m))) (requests w'))).
  { destruct Hr as [-> | [[i ->] | (c & Hc & ->)]].
    - rewrite drop_all. constructor.
    - rewrite drop_app_length. repeat constructor.
    - rewrite drop_app_length. repeat constructor. exact Hc. }
  destruct o as [waiting|]; cbn; repeat split; auto.
  apply Forall_app; split; [exact Hm|]. repeat constructor. now apply Hw.
Qed.

Lemma settle_quiet (i : nat) (reply : Reply) (m : Machine PageState) :
  settled_down m ->
  let m' := settle i reply m in
  settled_down m'
  /\ Forall (fun r => is_delete r = false)
       (drop (length (requests (world m))) (requests (world m')))
  /\ (ConfirmationModal.isOpen (confirmation m') = true ->
      ConfirmationModal.isOpen (confirmation m) = true).
Proof.
  intros Hm m'. subst m'. unfold settle.
  destruct (pending m !! i) as [p|] eqn:Hp;
    [|rewrite drop_all; repeat split; auto].
  destruct (resume p reply) as [[r k]|] eqn:Hres;
    [|rewrite drop_all; repeat split; auto].
  apply (start_quiet k (mkMachine (receive r reply (world m))
                          (delete i (pending m)))).
  - exact (proj1 (Forall_lookup _ _) Hm i p Hp reply r k Hres).
  - unfold settled_down; cbn. now apply Forall_delete.
Qed.

Lemma confirmed_snoc (evs : list Event) (ev : Event) :
  confirmed evs -> confirmed (evs ++ [ev]).
Proof.
  intros (before & after & id & -> & Hin).
  exists before, (after ++ [ev]), id. split; [|exact Hin].
  now rewrite <- app_assoc.
Qed.

Lemma new_requests_split (m m' : Machine PageState) (r : Request) :
  (exists rs, requests (world m') = requests (world m) ++ rs) ->
  In r (requests (world m')) ->
  In r (requests (world m))
  \/ In r (drop (length (requests (world m))) (requests (world m'))).
Proof.
  intros [rs Hrs] Hin. rewrite Hrs in *. rewrite drop_app_length.
  apply in_app_or in Hin. exact Hin.
Qed.

Lemma advance_extends {S} (p : Prog S) (w w' : World S) (o : option (Prog S)) :
  advance p w = (w', o) -> exists rs, requests w' = requests w ++ rs.
Proof.
  revert w; induction p; intros w Hadv; cbn in Hadv;
    try (injection Hadv as <- <-); eauto using app_nil_r;
    try (exists []; now rewrite app_nil_r);
    try (eexists; reflexivity).
  - apply IHp in Hadv. exact Hadv.
  - apply IHp in Hadv. exact Hadv.
  - apply IHp in Hadv. exact Hadv.
Qed.

Lemma start_extends {S} (p : Prog S) (m : Machine S) :
  exists rs, requests (world (start p m)) = requests (world m) ++ rs.
Proof.
  unfold start. destruct (advance p (world m)) as [w' o] eqn:Hadv.
  apply advance_extends in Hadv. destruct o; exact Hadv.
Qed.

Lemma step_extends (m : Machine PageState) (ev : Event) :
  exists rs,
    requests (world (step API_URL JSON_parse m ev))
    = requests (world m) ++ rs.
Proof.
  destruct ev as [e | i reply]; cbn.
  - destruct (enabled _ _); [apply start_extends|].
    exists []. now rewrite app_nil_r.
  - unfold settle. destruct (pending m !! i) as [p|];
      [|exists []; now rewrite app_nil_r].
    destruct (resume p reply) as [[r k]|];
      [|exists []; now rewrite app_nil_r].
    apply (start_extends k (mkMachine (receive r reply (world m))
                              (delete i (pending m)))).
Qed.

(** One step of the machine: only the confirm button of the open
    confirmation modal issues a [deleteOfficerEvent] request. *)
Lemma step_archive (evs : list Event) (m : Machine PageState) (ev : Event) :
  archive_invariant evs m ->
  let m' := step API_URL JSON_parse m ev in
  archive_invariant (evs ++ [ev]) m'
  /\ forall r,
       In r (drop (length (requests (world m))) (requests (world m'))) ->
       is_delete r = true ->
       ev = Ui ClickConfirm
       /\ ConfirmationModal.isOpen (confirmation m) = true
       /\ exists id, In (Ui (ClickArchive id)) evs.
Proof.
  intros (Hquiet & Hopen & Hreq) m'.
  assert (Hkeep : forall r,
            In r (requests (world m)) -> is_delete r = true ->
            confirmed (evs ++ [ev]))
    by (intros r Hr Hd; apply confirmed_snoc; eauto).
  assert (Hquiet_case :
    forall m1 : Machine PageState,
      m1 = m' ->
      settled_down m1
      /\ Forall (fun r => is_delete r = false)
           (drop (length (requests (world m))) (requests (world m1)))
      /\ (ConfirmationModal.isOpen (confirmation m1) = true ->
          ConfirmationModal.isOpen (confirmation m) = true) ->
      archive_invariant (evs ++ [ev]) m'
      /\ forall r,
           In r (drop (length (requests (world m))) (requests (world m'))) ->
           is_delete r = true ->
           ev = Ui ClickConfirm
           /\ ConfirmationModal.isOpen (confirmation m) = true
           /\ exists id, In (Ui (ClickArchive id)) evs).
  { intros m1 -> (Hq & Hnew & Hclosed).
    assert (Hnone : forall r,
              In r (drop (length (requests (world m))) (requests (world m'))) ->
              is_delete r = true -> False).
    { intros r Hr Hd. rewrite Forall_forall in Hnew.
      apply list_elem_of_In in Hr. apply Hnew in Hr. congruence. }
    split; [|intros r Hr Hd; destruct (Hnone r Hr Hd)].
    repeat split; [exact Hq | |].
    - intros Ho. destruct (Hopen (Hclosed Ho)) as [id Hid].
      exists id. apply in_or_app. now left.
    - intros r Hr Hd.
      destruct (new_requests_split m m' r (step_extends m ev) Hr) as [Hold|Hn];
        [eauto | destruct (Hnone r Hn Hd)]. }
  destruct ev as [e | i reply].
  - destruct (enabled (world m) e) eqn:Hen.
    2: { apply (Hquiet_case m); [subst m'; cbn; now rewrite Hen|].
         rewrite drop_all. repeat split; auto. }
    assert (Hm' : m' = start (handle API_URL JSON_parse (world m) e) m)
      by (subst m'; cbn [step]; now rewrite Hen).
    clearbody m'. subst m'.
    destruct e as [ | ? | ? | ? ? | | eventId | | | ? | ? | | | | | ? ? | ];
      try (apply (Hquiet_case _ eq_refl);
           apply start_quiet; [apply quiet_handle; congruence | exact Hquiet]).
    + (* Archive: the modal opens, nothing is requested. *)
      cbn. split.
      * repeat split; [exact Hquiet | |].
        -- intros _. exists eventId. apply in_or_app. right. now left.
        -- cbn. exact Hkeep.
      * rewrite drop_all. intros r [].
    + (* Confirm: the modal is open, so Archive was clicked before. *)
      assert (Ho : ConfirmationModal.isOpen (confirmation m) = true).
      { unfold enabled in Hen. now apply andb_prop in Hen as [_ Hen]. }
      destruct (Hopen Ho) as [id Hid].
      split; [|intros r _ _; eauto].
      unfold handle.
      destruct (ConfirmationModal.onConfirm (confirmation m)) as [c|].
      * destruct (confirmArchive_then_quiet c (world m))
          as (w' & waiting & Hadv & Hr & Hsame & Hnext).
        unfold start. rewrite Hadv. cbn. repeat split.
        -- apply Forall_app; split; [exact Hquiet | repeat constructor; exact Hnext].
        -- intros _. exists id. apply in_or_app. now left.
        -- intros r Hin Hd. cbn in Hin. rewrite Hr in Hin. apply in_app_or in Hin as [Hin|Hin].
           ++ eauto.
           ++ exists evs, [], id. split; [reflexivity | exact Hid].
      * cbn. repeat split; [exact Hquiet | | exact Hkeep].
        intros _. exists id. apply in_or_app. now left.
  - apply (Hquiet_case m' eq_refl). subst m'. cbn.
    apply settle_quiet. exact Hquiet.
Qed.

Lemma run_snoc (evs : list Event) (ev : Event) (m : Machine PageState) :
  run API_URL JSON_parse (evs ++ [ev]) m
  = step API_URL JSON_parse (run API_URL JSON_parse evs m) ev.
Proof. unfold run. now rewrite fold_left_app. Qed.

Lemma mount_invariant (storage : gmap string string) :
  archive_invariant [] (mount JSON_parse storage).
Proof.
  unfold mount.
  set (w := mkWorld initialState storage [] [] [] []).
  destruct (start_quiet _ (mkMachine w []) (quiet_mount (render_token w))
              (List.Forall_nil _)) as (Hq & Hnew & Hclosed).
  repeat split; [exact Hq | |].
  - intros Ho. apply Hclosed in Ho. discriminate.
  - intros r Hr Hd. cbn in Hnew. rewrite Forall_forall in Hnew.
    apply list_elem_of_In in Hr. apply Hnew in Hr. congruence.
Qed.

Lemma run_invariant (storage : gmap string string) (evs : list Event) :
  archive_invariant evs
    (run API_URL JSON_parse evs (mount JSON_parse storage)).
Proof.
  induction evs as [|ev evs IH] using rev_ind; [apply mount_invariant|].
  rewrite run_snoc. now apply step_archive.
Qed.

(** C5. Clicking Archive issues no request and only opens the
    confirmation modal; a [deleteOfficerEvent] request is issued only by
    the confirm action of the open modal, after an Archive click; so every
    such request of any run of the page was preceded by both. *)
Theorem archive_requires_confirmation (storage : gmap string string)
    (evs : list Event) :
  let m := run API_URL JSON_parse evs (mount JSON_parse storage) in
  (forall id,
      let m' := step API_URL JSON_parse m (Ui (ClickArchive id)) in
      requests (world m') = requests (world m)
      /\ pending m' = pending m
      /\ (enabled (world m) (ClickArchive id) = true ->
          ConfirmationModal.isOpen (confirmation m') = true))
  /\ (forall ev r,
      let m' := step API_URL JSON_parse m ev in
      In r (drop (length (requests (world m))) (requests (world m'))) ->
      is_delete r = true ->
      ev = Ui ClickConfirm
      /\ ConfirmationModal.isOpen (confirmation m) = true
      /\ exists id, In (Ui (ClickArchive id)) evs)
  /\ (forall r,
      In r (requests (world m)) -> is_delete r = true -> confirmed evs).
Proof.
  intros m. pose proof (run_invariant storage evs) as Hinv. fold m in Hinv.
  repeat split.
  - cbn. destruct (enabled _ _); reflexivity.
  - cbn. destruct (enabled _ _); reflexivity.
  - cbn. intros ->. reflexivity.
  - eapply (proj2 (step_archive evs m ev Hinv)); eassumption.
  - eapply (proj2 (step_archive evs m ev Hinv)); eassumption.
  - eapply (proj2 (step_archive evs m ev Hinv)); eassumption.
  - destruct Hinv as (_ & _ & Hreq). exact Hreq.
Qed.

(** *** Sessions: when the officer is logged out *)

(** X1. On the officer page a 401 / invalid-token failure always clears
    the stored session and redirects to the officer login: in the events
    fetch and in every handler, the list refresh after a successful
    approval excepted. *)
Theorem unauthorized_failures_log_out (b : Backend) (w : World PageState) :
  (forall token showArchived req reply,
      let w' := exec b (fetchData JSON_parse token showArchived) w in
      In (req, reply) (exchanges w w') ->
      unauthorized reply = true ->
      logged_out w w')
  /\ (forall e req reply,
      let w' := exec b (handle API_URL JSON_parse w e) w in
      In (req, reply) (exchanges w w') ->
      unauthorized reply = true ->
      (forall action reason c,
          e = SubmitApproval action reason -> req <> Service c) ->
      logged_out w w').
Proof.
  split.
  - intros token showArchived req reply w' Hin Hu.
    eapply fetchData_unauthorized_logs_out; eassumption.
  - intros e req reply w' Hin Hu Hexcept.
    eapply officer_unauthorized_logs_out; [eassumption | eassumption |].
    destruct e; try exact I. destruct req as [c|i]; [|exact I].
    exact (Hexcept _ _ c eq_refl eq_refl).
Qed.

Ltac use_exchanges :=
  match goal with
  | H : forall req reply, _ -> unauthorized reply = false |- _ =>
      try (pose proof (H _ _ (or_introl eq_refl)));
      try (pose proof (H _ _ (or_intror (or_introl eq_refl))));
      clear H
  end.

(** X2. Conversely, no handler of the page touches the stored session or
    the route unless one of its requests failed as unauthorized (the
    parser of the stored officer record is assumed not to fail with a
    message that reads like one). *)
Theorem session_cleared_only_when_unauthorized (b : Backend)
    (w : World PageState) (e : UiEvent) :
  let w' := exec b (handle API_URL JSON_parse w e) w in
  (forall s m, JSON_parse s = Rejected m -> authFailed m = false) ->
  (forall req reply,
      In (req, reply) (exchanges w w') -> unauthorized reply = false) ->
  localStorage w' = localStorage w /\ navigated w' = navigated w.
Proof.
  intros w' Hparse; subst w'.
  destruct e; unfold_handlers; forks; settled_since; intros Hall;
    try (split; reflexivity);
    try use_exchanges; cbn in *; absurd_reply;
    match goal with
    | Hp : JSON_parse _ = Rejected ?m, Ha : authFailed ?m = true |- _ =>
        rewrite (Hparse _ _ Hp) in Ha; discriminate
    end.
Qed.

(** *** The events fetch *)

(** X5. Without a token [fetchData] does nothing at all; with one,
    whatever the stored officer record and the backend do, it ends with
    both the loading and the transitioning flag cleared, lets no error
    escape, and leaves the archive view as it was. *)
Theorem fetchData_always_stops_loading (b : Backend) (w : World PageState)
    (token : Token) (showArchived' : bool) :
  let w' := exec b (fetchData JSON_parse token showArchived') w in
  (present token = false -> w' = w)
  /\ (present token = true ->
      isLoading (state w') = false
      /\ isTransitioning (state w') = false
      /\ uncaught w' = uncaught w
      /\ showArchived (state w') = showArchived (state w)).
Proof.
  intros w'; subst w'. split; intros Htok; unfold_handlers; rewrite Htok.
  - reflexivity.
  - forks; repeat split; reflexivity.
Qed.

(** X6. [fetchData] with a token: when the stored officer record parses
    and the events request is fulfilled, the officer and the event list
    are stored and nothing else is shown or cleared; when the record does
    not parse, no request is made at all. *)
Theorem fetchData_outcomes (b : Backend) (w : World PageState)
    (token : Token) (showArchived' : bool) :
  let request := getOfficerEvents token showArchived' in
  let w' := exec b (fetchData JSON_parse token showArchived') w in
  present token = true ->
  (forall officerData eventsData,
      stored_officer JSON_parse w = Fulfilled officerData ->
      service b (length (requests w)) request = Fulfilled eventsData ->
      officer (state w') = officerData
      /\ events (state w') = eventsData
      /\ requests w' = requests w ++ [Service request]
      /\ statusModal (state w') = statusModal (state w)
      /\ localStorage w' = localStorage w
      /\ navigated w' = navigated w)
  /\ (forall m,
      stored_officer JSON_parse w = Rejected m ->
      requests w' = requests w
      /\ officer (state w') = officer (state w)
      /\ events (state w') = events (state w)).
Proof.
  intros request w' Htok; subst w' request. unfold stored_officer.
  split.
  - intros officerData eventsData Hparse Hok. unfold_handlers.
    rewrite Htok. cbn. rewrite Hparse. cbn. rewrite Hok. cbn.
    repeat split.
  - intros m Hparse. unfold_handlers. rewrite Htok. cbn. rewrite Hparse.
    forks; repeat split; reflexivity.
Qed.

(** *** Participants *)

(** X7. When the participants request succeeds, the details modal is
    closed, the event selected, the list stored (the empty list when the
    body is [null] or otherwise falsy) and the participants modal opened;
    the status modal and the session are untouched. *)
Theorem participants_fetch_success (b : Backend) (w : World PageState)
    (token : string) (event : JsVal) (res : HttpResponse) (body : JsVal) :
  let request := participants_request API_URL (Some token) event in
  let w' := exec b (handleParticipants API_URL (Some token) event) w in
  truthy (get event "id") = true ->
  http b (length (requests w)) request = Fulfilled res ->
  ok res = true ->
  json res = Fulfilled body ->
  participants (state w') = (if truthy body then body else JArr [])
  /\ showParticipantsModal (state w') = true
  /\ showDetailsModal (state w') = false
  /\ selectedEvent (state w') = event
  /\ requests w' = requests w ++ [Http request]
  /\ statusModal (state w') = statusModal (state w)
  /\ localStorage w' = localStorage w
  /\ navigated w' = navigated w.
Proof.
  intros request w' Hid Hres Hok Hbody; subst w' request.
  unfold participants_request in Hres.
  unfold_handlers. rewrite Hid. cbn. rewrite Hres. cbn. rewrite Hok. cbn.
  rewrite Hbody. cbn. repeat split.
Qed.

(** X8. For an event without an id ([null], no [id], or a falsy id such
    as 0) [handleParticipants] makes no request and changes nothing but
    the status modal, which reports the invalid event. *)
Theorem participants_of_invalid_event (b : Backend) (w : World PageState)
    (token : Token) (event : JsVal) :
  let w' := exec b (handleParticipants API_URL token event) w in
  truthy (get event "id") = false ->
  w' = with_state
         (setStatusModal
            (StatusModal.mk true "Error"
               "Cannot load participants: Invalid event." "error")) w.
Proof.
  intros w' Hid; subst w'. unfold_handlers. rewrite Hid. reflexivity.
Qed.

(** *** Switching between active and archived events *)


(** *** Approval *)

(** X12. After a submission of the approval modal the modal is closed and
    its event id forgotten, in every case but one: a 401 response to the
    approve request leaves the modal state as it was. *)
Theorem approval_modal_closes_unless_unauthorized (b : Backend)
    (w : World PageState) (action : string) (reason : option string) :
  let eventId := ApprovalModal.eventId (approvalModal (state w)) in
  let request := approve_request API_URL (render_token w) eventId in
  let w' :=
    exec b (handle API_URL JSON_parse w (SubmitApproval action reason)) w in
  let unauthorized_response :=
    truthy eventId && negb (String.eqb action "decline")
    && unauthorized (HttpReply (http b (length (requests w)) request)) in
  approvalModal (state w')
  = if unauthorized_response
    then approvalModal (state w)
    else ApprovalModal.mk false JNull.
Proof.
  intros eventId request w' flag; subst flag w' request eventId.
  unfold_handlers. unfold unauthorized.
  destruct (truthy _); cbn; [|reflexivity].
  destruct (String.eqb action "decline"); cbn; [reflexivity|].
  destruct (http b _ _) as [res|m]; cbn; [|reflexivity].
  destruct (ok res) eqn:Hok; cbn.
  - destruct (Z.eqb_spec (status res) 401) as [H401|_].
    + apply Z.eqb_eq, ok_unauthorized in H401. congruence.
    + forks; reflexivity.
  - forks; reflexivity.
Qed.

(** *** Saving an event *)

(** X13. [handleSave]: when the create or update call is rejected (not as
    unauthorized), no refresh is requested, the event modal and the event
    list stay as they were, and the error modal carries the
    account-not-found text exactly when the rejection mentions
    'Officer not found'.  When the call succeeds the event modal is
    closed; a refresh that then fails is still reported as an error
    saving the event, over the unchanged list. *)
Theorem save_outcomes (b : Backend) (w : World PageState)
    (token : Token) (showArchived' : bool) (formData eventId : JsVal) :
  let n := length (requests w) in
  let mutation := save_call token formData eventId in
  let refetch := getOfficerEvents token showArchived' in
  let w' := exec b (handleSave token showArchived' formData eventId) w in
  (forall m,
      service b n mutation = Rejected m -> authFailed m = false ->
      requests w' = requests w ++ [Service mutation]
      /\ showEventModal (state w') = showEventModal (state w)
      /\ events (state w') = events (state w)
      /\ statusModal (state w')
         = StatusModal.mk true "Error Saving Event"
             (if includes m "Officer not found"
              then "Your officer account was not found or is deactivated. Please contact support or log in again."
              else "Failed to save the event. Please try again.")
             "error")
  /\ (forall v,
      service b n mutation = Fulfilled v ->
      showEventModal (state w') = false
      /\ forall m,
           service b (S n) refetch = Rejected m -> authFailed m = false ->
           events (state w') = events (state w)
           /\ StatusModal.title (statusModal (state w')) = "Error Saving Event"
           /\ StatusModal.type (statusModal (state w')) = "error").
Proof.
  intros n mutation refetch w'; subst w' refetch mutation n.
  unfold save_call. split.
  - intros m Hko Hauth. unfold_handlers.
    destruct (truthy eventId); cbn; rewrite Hko; cbn; rewrite Hauth; cbn;
      repeat split.
  - intros v Hok. unfold_handlers.
    destruct (truthy eventId); cbn; rewrite Hok; cbn;
      rewrite length_app, Nat.add_1_r; cbn [length];
      (split; [forks; reflexivity|]);
      intros m Hko Hauth; rewrite Hko; cbn; rewrite Hauth; cbn;
      repeat split.
Qed.

(** *** Archiving: how the confirmation ends *)

(** X14. When [confirmArchive] is over: if none of its requests failed as
    unauthorized, the confirmation modal is closed with its loading flag
    cleared (the rest of it untouched) and a status modal is open; if one
    did, the officer is logged out while the modal stays as it was, still
    loading. *)
Theorem confirmArchive_completion (b : Backend) (w : World PageState)
    (c : ArchiveClosure) :
  let before := confirmationModal (state w) in
  let w' := exec b (confirmArchive c) w in
  let after := confirmationModal (state w') in
  ((forall req reply,
       In (req, reply) (exchanges w w') -> unauthorized reply = false) ->
   after = ConfirmationModal.mk false (ConfirmationModal.title before)
             (ConfirmationModal.message before)
             (ConfirmationModal.onConfirm before)
             (ConfirmationModal.eventId before) false
   /\ StatusModal.isOpen (statusModal (state w')) = true
   /\ localStorage w' = localStorage w
   /\ navigated w' = navigated w)
  /\ ((exists req reply,
         In (req, reply) (exchanges w w') /\ unauthorized reply = true) ->
      after = ConfirmationModal.mk (ConfirmationModal.isOpen before)
                (ConfirmationModal.title before)
                (ConfirmationModal.message before)
                (ConfirmationModal.onConfirm before)
                (ConfirmationModal.eventId before) true
      /\ logged_out w w').
Proof.
  intros before w' after; subst after w' before. unfold logged_out.
  unfold_handlers; forks; settled_since; split.
  all: try (intros Hall; try use_exchanges; cbn in *; absurd_reply;
            repeat split; reflexivity).
  all: intros (req & reply & Hin & Hu); pick_exchange; absurd_reply;
    repeat split; reflexivity.
Qed.

(** *** Mounting the page *)

Lemma run_fixed (m : Machine PageState) (evs : list Event) :
  (forall ev, step API_URL JSON_parse m ev = m) ->
  run API_URL JSON_parse evs m = m.
Proof.
  intros Hfix. induction evs as [|ev evs IH]; [reflexivity|].
  unfold run in *. cbn [fold_left]. now rewrite Hfix.
Qed.

(** X3. Mounted without a token, the page removes what is stored of the
    session, redirects to the officer login and makes no request; it
    stays in its loading state, so nothing the user or the backend does
    afterwards has any effect. *)
Theorem mount_without_token (storage : gmap string string)
    (evs : list Event) :
  let m := mount JSON_parse storage in
  present (storage !! "officerAccessToken") = false ->
  run API_URL JSON_parse evs m = m
  /\ requests (world m) = []
  /\ pending m = []
  /\ navigated (world m) = ["/officer-login"]
  /\ localStorage (world m)
     = delete "officerInfo" (delete "officerAccessToken" storage)
  /\ isLoading (state (world m)) = true.
Proof.
  intros m Htok. subst m. unfold mount, render_token, authCheck, fetchData.
  cbn. rewrite Htok. cbn. split; [|repeat split].
  apply run_fixed. intros [e | i reply]; [|reflexivity].
  cbn. reflexivity.
Qed.

(** X4. Mounted with a token but without the stored officer record, the
    page logs the officer out and nevertheless requests the events with
    that token: the two effects do not know of each other. *)
Theorem mount_without_officer_info (storage : gmap string string) :
  let token := storage !! "officerAccessToken" in
  let m := mount JSON_parse storage in
  present token = true ->
  present (storage !! "officerInfo") = false ->
  requests (world m) = [Service (getOfficerEvents token false)]
  /\ length (pending m) = 1
  /\ navigated (world m) = ["/officer-login"]
  /\ localStorage (world m)
     = delete "officerInfo" (delete "officerAccessToken" storage)
  /\ officer (state (world m)) = JNull.
Proof.
  intros token m Htok Hinfo. subst m token.
  unfold mount, render_token, authCheck, fetchData.
  cbn. rewrite Htok. unfold start. cbn. rewrite Hinfo. cbn.
  rewrite lookup_delete_eq. cbn. repeat split.
Qed.

(** *** Which event a confirmation archives, which an approval approves *)

Lemma rendered_frame (w : World PageState) (f : PageState -> PageState) :
  isLoading (f (state w)) = isLoading (state w) ->
  officer (f (state w)) = officer (state w) ->
  rendered (with_state f w) = rendered w.
Proof. intros Hl Ho. unfold rendered, render_token. cbn. now rewrite Hl, Ho. Qed.

(** X10. Clicking Archive on a card stores the card's event id in the
    confirmation modal, but the [deleteOfficerEvent] request issued by
    the confirm button carries the id the modal held before that click
    ([null] for the first archive after mounting): the stored
    [confirmArchive] is the one of the render in which Archive was
    clicked. *)
Theorem confirm_archives_previous_id (m : Machine PageState) (id : JsVal) :
  let clicked := step API_URL JSON_parse m (Ui (ClickArchive id)) in
  let after_confirm := step API_URL JSON_parse clicked (Ui ClickConfirm) in
  enabled (world m) (ClickArchive id) = true ->
  ConfirmationModal.eventId (confirmation clicked) = id
  /\ requests (world after_confirm)
     = requests (world m)
       ++ [Service (deleteOfficerEvent
                      (ConfirmationModal.eventId (confirmation m))
                      (render_token (world m)))].
Proof.
  intros clicked after_confirm Hen. subst after_confirm clicked.
  cbn [step]. rewrite Hen. unfold handle at 2. unfold handleArchive.
  cbn [start advance world pending].
  assert (Hen' : enabled
                   (with_state
                      (setConfirmationModal
                         (ConfirmationModal.mk true "Archive Event"
                            "Are you sure you want to archive this event? This action will move the event to archived status."
                            (Some (mkClosure
                                     (ConfirmationModal.eventId (confirmation m))
                                     (render_token (world m))
                                     (showArchived (state (world m)))))
                            id false)) (world m))
                   ClickConfirm = true).
  { unfold enabled in *. rewrite rendered_frame by reflexivity.
    apply andb_prop in Hen as [-> _]. reflexivity. }
  cbn [world]. rewrite Hen'. split; reflexivity.
Qed.

(** X11. The approval modal, in contrast, approves the event that was
    clicked: after Approve on a card with a (truthy) id, a submission
    other than a decline posts to that event's approve endpoint, with the
    page's token. *)
Theorem submission_approves_clicked_id (m : Machine PageState)
    (id : JsVal) (action : string) (reason : option string) :
  let clicked := step API_URL JSON_parse m (Ui (ClickApproveEvent id)) in
  let after_submit :=
    step API_URL JSON_parse clicked (Ui (SubmitApproval action reason)) in
  enabled (world m) (ClickApproveEvent id) = true ->
  truthy id = true ->
  action <> "decline" ->
  approvalModal (state (world clicked)) = ApprovalModal.mk true id
  /\ requests (world after_submit)
     = requests (world m)
       ++ [Http (approve_request API_URL (render_token (world m)) id)].
Proof.
  intros clicked after_submit Hen Hid Haction%String.eqb_neq.
  subst after_submit clicked.
  cbn [step]. rewrite Hen. unfold handle at 2. unfold handleApproveEvent.
  cbn [start advance world pending].
  assert (Hen' : enabled
                   (with_state (setApprovalModal (ApprovalModal.mk true id))
                      (world m))
                   (SubmitApproval action reason) = true).
  { unfold enabled in *. now rewrite rendered_frame by reflexivity. }
  cbn [world]. rewrite Hen'. split; [reflexivity|].
  unfold handle, handleApprovalSubmit. cbn. rewrite Hid, Haction.
  reflexivity.
Qed.

(** *** Every request carries a token *)

Lemma every_effect_seq {S} PS PR (p q : Prog S) :
  every_effect PS PR p -> every_effect PS PR q ->
  every_effect PS PR (seq p q).
Proof. induction 1; intros Hq; cbn; try constructor; auto. Qed.

Lemma every_effect_try_catch {S} PS PR (p : Prog S) (h : string -> Prog S) :
  every_effect PS PR p -> (forall m, every_effect PS PR (h m)) ->
  every_effect PS PR (try_catch p h).
Proof. induction 1; intros Hh; cbn; try constructor; auto. Qed.

Lemma every_effect_finally {S} PS PR (p q : Prog S) :
  every_effect PS PR p -> every_effect PS PR q ->
  every_effect PS PR (finally p q).
Proof.
  induction 1; intros Hq; cbn; try constructor; auto.
  apply every_effect_seq; [assumption | constructor].
Qed.

Lemma every_effect_await {S} PS PR (c : ServiceCall) (k : JsVal -> Prog S) :
  PR (Service c) -> (forall v, every_effect PS PR (k v)) ->
  every_effect PS PR (await c k).
Proof.
  intros Hc Hk. constructor; [assumption|].
  intros [v|m]; [auto | constructor].
Qed.

Lemma every_effect_await_fetch {S} PS PR (r : FetchInit)
    (k : HttpResponse -> Prog S) :
  PR (Http r) -> (forall res, every_effect PS PR (k res)) ->
  every_effect PS PR (await_fetch r k).
Proof.
  intros Hr Hk. constructor; [assumption|].
  intros [v|m]; [auto | constructor].
Qed.

(** A handler all of whose effects are as [PS] and [PR] say, started in
    a machine: the invariant [J] the updates keep still holds, the
    requests it issues satisfy [PR], and so will what it does later. *)
Lemma start_every_effect {S} (PS : (S -> S) -> Prop) (PR : Request -> Prop)
    (J : S -> Prop) (p : Prog S) (m : Machine S) :
  every_effect PS PR p ->
  (forall f s, PS f -> J s -> J (f s)) ->
  J (state (world m)) ->
  Forall PR (requests (world m)) ->
  Forall (every_next PS PR) (pending m) ->
  J (state (world (start p m)))
  /\ Forall PR (requests (world (start p m)))
  /\ Forall (every_next PS PR) (pending (start p m)).
Proof.
  intros Hp HJ. destruct m as [w ps]. cbn [world pending].
  revert w.
  induction Hp as [ | msg | f k Hf Hk IH | key k Hk IH | key k Hk IH
                  | path k Hk IH | c k Hc Hk IH | r k Hr Hk IH ];
    intros w Hw Hreq Hps; unfold start in *; cbn in *.
  - auto.
  - auto.
  - apply (IH (with_state f w)); cbn; auto.
  - apply (IH _ w); auto.
  - apply (IH (removeItem key w)); cbn; auto.
  - apply (IH (navigate path w)); cbn; auto.
  - repeat split; [assumption | | ].
    + apply Forall_app; split; [assumption | repeat constructor; assumption].
    + apply Forall_app; split; [assumption|]. repeat constructor.
      intros reply r' k' Hres. destruct reply; cbn in Hres; [|discriminate].
      injection Hres as <- <-. apply Hk.
  - repeat split; [assumption | | ].
    + apply Forall_app; split; [assumption | repeat constructor; assumption].
    + apply Forall_app; split; [assumption|]. repeat constructor.
      intros reply r' k' Hres. destruct reply; cbn in Hres; [discriminate|].
      injection Hres as <- <-. apply Hk.
Qed.

Lemma keeps_token_frame (f : PageState -> PageState) :
  (forall s, ConfirmationModal.onConfirm (confirmationModal (f s))
             = ConfirmationModal.onConfirm (confirmationModal s)) ->
  keeps_token f.
Proof. intros Hf s Hs c Hc. apply Hs. now rewrite <- Hf. Qed.

Ltac token_steps :=
  repeat first
    [ apply every_effect_try_catch; [|intros ?]
    | apply every_effect_finally
    | apply every_effect_seq
    | apply every_effect_await; [assumption | intros ?]
    | apply every_effect_await_fetch; [eexists; split; [eassumption | reflexivity] | intros ?]
    | apply every_Done
    | apply every_Throw
    | apply every_SetState; [apply keeps_token_frame; intros []; reflexivity|]
    | apply every_GetItem; intros ?
    | apply every_RemoveItem
    | apply every_Navigate
    | match goal with
      | |- every_effect _ _ (property ?o _ _) => unfold property; destruct o
      | |- every_effect _ _ (if ?c then _ else _) => destruct c
      | |- every_effect _ _ (match ?c with _ => _ end) => destruct c
      end ].

Lemma fetchData_authenticated (token : Token) (showArchived' : bool) :
  every_effect keeps_token authenticated
    (fetchData JSON_parse token showArchived').
Proof.
  unfold fetchData, logout. destruct (present token) eqn:Htok; cbn [negb];
    [|constructor].
  assert (authenticated (Service (getOfficerEvents token showArchived')))
    by exact Htok.
  token_steps.
Qed.

Lemma confirmArchive_authenticated (c : ArchiveClosure) :
  present (closure_token c) = true ->
  every_effect keeps_token authenticated (confirmArchive c).
Proof.
  intros Htok. unfold confirmArchive, logout.
  assert (authenticated
            (Service (deleteOfficerEvent (closure_eventId c) (closure_token c))))
    by exact Htok.
  assert (authenticated
            (Service (getOfficerEvents (closure_token c)
                        (closure_showArchived c))))
    by exact Htok.
  token_steps.
Qed.

Lemma handle_authenticated (w : World PageState) (e : UiEvent) :
  present (render_token w) = true ->
  closure_has_token (state w) ->
  every_effect keeps_token authenticated (handle API_URL JSON_parse w e).
Proof.
  intros Htok Hclosure.
  destruct e as [ | ? | ? | ? ? | | eventId | | | ? | ? | | | | | fd id | ].
  6: { (* Archive stores a closure with the render's token. *)
       unfold handle, handleArchive. constructor; [|constructor].
       intros s _ c Hc. cbn in Hc. injection Hc as <-. exact Htok. }
  6: { (* Confirm runs the stored closure. *)
       unfold handle.
       destruct (ConfirmationModal.onConfirm _) as [c|] eqn:Hc;
         [|constructor].
       apply confirmArchive_authenticated, Hclosure, Hc. }
  13: { (* Save *)
       unfold handle, handleSave, logout.
       assert (authenticated
                 (Service (updateOfficerEvent id fd (render_token w))))
         by exact Htok.
       assert (authenticated
                 (Service (createOfficerEvent fd (render_token w))))
         by exact Htok.
       assert (authenticated
                 (Service (getOfficerEvents (render_token w)
                             (showArchived (state w)))))
         by exact Htok.
       token_steps. }
  13: { (* Toggle *)
       unfold handle. apply every_effect_seq;
         [unfold toggleArchived; token_steps | apply fetchData_authenticated]. }
  all: unfold handle, handleAddNewEvent, handleEdit, handleApproveEvent,
         handleApprovalSubmit, handleCloseConfirmationModal, handleDetails,
         handleParticipants, handleCloseEventModal, handleCloseDetailsModal,
         handleCloseParticipantsModal, handleCloseStatusModal, logout,
         closeApprovalModal, approve_request, participants_request.
  all: try assert (authenticated
                     (Service (getOfficerEvents (render_token w)
                                 (showArchived (state w)))))
         by exact Htok.
  all: destruct (render_token w) as [token|] eqn:Hrender; [|discriminate].
  all: token_steps.
Qed.

Lemma step_token_invariant (m : Machine PageState) (ev : Event) :
  token_invariant m -> token_invariant (step API_URL JSON_parse m ev).
Proof.
  intros (Hclosure & Hreq & Hpending).
  destruct ev as [e | i reply]; cbn [step].
  - destruct (enabled (world m) e) eqn:Hen; [|now repeat split].
    apply start_every_effect; auto.
    apply handle_authenticated; [|exact Hclosure].
    unfold enabled, rendered in Hen.
    apply andb_prop in Hen as [Hen _]. apply andb_prop in Hen as [Hen _].
    apply andb_prop in Hen as [Hen _]. now apply andb_prop in Hen as [_ Hen].
  - unfold settle. destruct (pending m !! i) as [p|] eqn:Hp;
      [|now repeat split].
    destruct (resume p reply) as [[r k]|] eqn:Hres; [|now repeat split].
    apply (start_every_effect keeps_token authenticated closure_has_token k
             (mkMachine (receive r reply (world m)) (delete i (pending m)))).
    + exact (proj1 (Forall_lookup _ _) Hpending i p Hp reply r k Hres).
    + intros f s Hf. apply Hf.
    + exact Hclosure.
    + exact Hreq.
    + cbn. now apply Forall_delete.
Qed.

(** X15. Throughout any run of the page, from mounting on, every request
    it issues is made with a non-empty token: service calls receive one,
    and each [fetch] has an [Authorization] header built from one. *)
Theorem every_request_is_authenticated (storage : gmap string string)
    (evs : list Event) :
  Forall authenticated
    (requests (world (run API_URL JSON_parse evs (mount JSON_parse storage)))).
Proof.
  enough (token_invariant
            (run API_URL JSON_parse evs (mount JSON_parse storage)))
    as (_ & H & _) by exact H.
  induction evs as [|ev evs IH] using rev_ind.
  - unfold mount. apply start_every_effect.
    + apply every_effect_seq; [|apply fetchData_authenticated].
      unfold authCheck, logout. token_steps.
    + intros f s Hf. apply Hf.
    + intros c Hc. discriminate Hc.
    + constructor.
    + constructor.
  - rewrite run_snoc. now apply step_token_invariant.
Qed.

(** *** Opening and closing the details and the event modal *)

(** X22. For an event that is an object, opening its details and
    closing them again, from a page with nothing selected, leaves the
    page exactly as it was (closing the details clears the selection),
    whereas closing the event modal after Edit leaves the edited event
    selected.  For [null] or [undefined] both handlers throw on reading
    the id, before any state is set: the page state is unchanged and the
    error is not caught. *)
Theorem details_round_trip (b : Backend) (w : World PageState)
    (event : JsVal) :
  (nullish event = false ->
   (selectedEvent (state w) = JNull ->
    showDetailsModal (state w) = false ->
    exec b handleCloseDetailsModal (exec b (handleDetails event) w) = w)
   /\ (let w' := exec b handleCloseEventModal (exec b (handleEdit event) w) in
       showEventModal (state w') = false
       /\ selectedEvent (state w') = event
       /\ showDetailsModal (state w') = showDetailsModal (state w)
       /\ uncaught w' = uncaught w))
  /\ (nullish event = true ->
      exists message,
        exec b (handleDetails event) w = unhandled message w
        /\ exec b (handleEdit event) w = unhandled message w).
Proof.
  split; intros Hnull.
  - split.
    + destruct w as [s ls nav rq st un]. destruct s. cbn.
      intros -> ->. destruct event; try discriminate Hnull; reflexivity.
    + destruct event; try discriminate Hnull; cbn; repeat split.
  - destruct event; try discriminate Hnull; eexists; split; reflexivity.
Qed.

End OfficerEvents.

(** ** ProfilePage *)

Section Profile.

Import ProfilePage.

(** C7. When the update request succeeds, the profile it returned
    becomes the page's user and the success modal is shown. *)
Theorem successful_update_replaces_user (b : Backend) (w : World PageState)
    (token : Token) (updatedData : gmap string JsVal) (updatedUser : JsVal) :
  let w' := exec b (handleUpdateProfile token updatedData) w in
  service b (length (requests w)) (updateProfile token updatedData)
  = Fulfilled updatedUser ->
  user (state w') = updatedUser
  /\ modalState (state w')
     = ModalState.mk true "success" "Profile Updated"
         "Your profile has been successfully updated."
  /\ requests w' = requests w ++ [Service (updateProfile token updatedData)]
  /\ localStorage w' = localStorage w
  /\ navigated w' = navigated w.
Proof.
  intros w' Hok. subst w'. unfold handleUpdateProfile. cbn. rewrite Hok.
  repeat split.
Qed.

(** Whatever makes the update request fail, the page shows the error
    modal and leaves the session alone. *)
Lemma failed_update_shows_error (b : Backend) (w : World PageState)
    (token : Token) (updatedData : gmap string JsVal) (message : string) :
  let w' := exec b (handleUpdateProfile token updatedData) w in
  service b (length (requests w)) (updateProfile token updatedData)
  = Rejected message ->
  ModalState.isOpen (modalState (state w')) = true
  /\ ModalState.type (modalState (state w')) = "error"
  /\ user (state w') = user (state w)
  /\ localStorage w' = localStorage w
  /\ navigated w' = navigated w.
Proof.
  intros w' Hko. subst w'. unfold handleUpdateProfile. cbn. rewrite Hko.
  repeat split.
Qed.

(** Whatever makes the profile request fail, the page clears the session
    and goes to the login page, without a dialog. *)
Lemma failed_fetch_logs_out (b : Backend) (w : World PageState)
    (token : Token) (message : string) :
  let w' := exec b (fetchProfile token) w in
  present token = true ->
  service b (length (requests w)) (getProfile token) = Rejected message ->
  localStorage w' = delete "user_id" (delete "access_token" (localStorage w))
  /\ navigated w' = navigated w ++ ["/"]
  /\ modalState (state w') = modalState (state w)
  /\ user (state w') = user (state w).
Proof.
  intros w' Htok Hko. subst w'. unfold fetchProfile. rewrite Htok. cbn.
  rewrite Hko. repeat split.
Qed.

(** C1, on the code.  When the update request is rejected as
    unauthorized (by the test the officer pages apply to a rejection),
    [handleUpdateProfile] neither clears the stored credentials nor
    redirects: the outcome is the generic error modal. *)
Theorem unauthorized_update_keeps_session (b : Backend)
    (w : World PageState) (token : Token) (updatedData : gmap string JsVal)
    (message : string) :
  let reply := service b (length (requests w)) (updateProfile token updatedData) in
  let w' := exec b (handleUpdateProfile token updatedData) w in
  reply = Rejected message ->
  OfficerManageEventsPage.unauthorized (ServiceReply reply) = true ->
  localStorage w' = localStorage w
  /\ navigated w' = navigated w
  /\ modalState (state w')
     = ModalState.mk true "error" "Profile Update Failed"
         "Failed to update profile. Please try again.".
Proof.
  intros reply w' Hko _. subst w' reply. unfold handleUpdateProfile. cbn.
  rewrite Hko. repeat split.
Qed.


(** X16. Mounting the profile page.  Without a token it removes what is
    stored of the session and goes to the login page, makes no request
    and stays in its loading state.  With a token it requests the
    profile once and always ends loading without letting an error
    escape; a fulfilled request sets the user and touches neither the
    session, the route nor the dialog. *)
Theorem profile_mount_outcomes (b : Backend) (w : World PageState)
    (token : Token) :
  let w' := exec b (profile_mount token) w in
  (present token = false ->
     localStorage w'
     = delete "user_id" (delete "access_token" (localStorage w))
     /\ navigated w' = navigated w ++ ["/"]
     /\ requests w' = requests w
     /\ state w' = state w)
  /\ (present token = true ->
      requests w' = requests w ++ [Service (getProfile token)]
      /\ isLoading (state w') = false
      /\ uncaught w' = uncaught w
      /\ forall userData,
           service b (length (requests w)) (getProfile token)
           = Fulfilled userData ->
           user (state w') = userData
           /\ modalState (state w') = modalState (state w)
           /\ localStorage w' = localStorage w
           /\ navigated w' = navigated w).
Proof.
  intros w'; subst w'. unfold profile_mount, tokenCheck, fetchProfile, logout.
  split; intros Htok; rewrite Htok; cbn.
  - repeat split.
  - destruct (service b _ _) as [u|m]; cbn;
      repeat (split; [reflexivity|]); intros userData Heq;
      [injection Heq as <- | discriminate Heq]; repeat split.
Qed.

End Profile.

(** ** ProfileCard *)

Section Card.

Import ProfileCard.

Lemma dom_editable (user : JsVal) : dom (editable user) = editable_fields.
Proof.
  unfold editable, editable_fields.
  rewrite !dom_insert_L, dom_empty_L. set_solver.
Qed.

Lemma name_editable (control : Control) : name control ∈ editable_fields.
Proof. unfold editable_fields. destruct control; cbn; set_solver. Qed.

Lemma well_formed_initial (user : JsVal) : well_formed (initial user).
Proof. split; [apply dom_editable | constructor]. Qed.

Lemma well_formed_step (c : Card) (e : Event) :
  well_formed c -> well_formed (step c e).
Proof.
  intros [Hform Hsub]. destruct e as [control value | | | u]; cbn.
  - destruct (isEditing c); [|now split]. split; [|exact Hsub]. cbn.
    rewrite dom_insert_L, Hform.
    apply subseteq_union_1_L, singleton_subseteq_l, name_editable.
  - destruct (isEditing c); [|now split]. split; [exact Hform|]. cbn.
    apply Forall_app; split; [exact Hsub | now repeat constructor].
  - split; [apply dom_editable | exact Hsub].
  - now split.
Qed.

Lemma well_formed_run (evs : list Event) (c : Card) :
  well_formed c -> well_formed (run evs c).
Proof.
  revert c; induction evs as [|e evs IH]; intros c Hc; [exact Hc|].
  apply IH, well_formed_step, Hc.
Qed.

Lemma read_only_absent (payload : gmap string JsVal) :
  dom payload = editable_fields ->
  payload !! "student_number" = None /\ payload !! "email" = None.
Proof.
  intros Hdom. split; apply not_elem_of_dom; rewrite Hdom;
    unfold editable_fields; rewrite !elem_of_union, !elem_of_singleton;
    intros [[H|H]|H]; discriminate H.
Qed.

(** C8. Whatever the user does in the form, every payload passed to
    [onUpdate] has exactly the keys [full_name], [year] and [block], and
    so neither [student_number] nor [email]. *)
Theorem update_payload_has_only_editable_fields (user : JsVal)
    (evs : list Event) :
  Forall (fun payload : gmap string JsVal =>
            dom payload = {["full_name"; "year"; "block"]}
            /\ payload !! "student_number" = None
            /\ payload !! "email" = None)
    (submitted (run evs (initial user))).
Proof.
  destruct (well_formed_run evs _ (well_formed_initial user)) as [_ Hsub].
  eapply Forall_impl; [exact Hsub|]. intros payload Hdom.
  split; [exact Hdom | now apply read_only_absent].
Qed.

(** Submitting the form passes the current form data to [onUpdate]. *)
Lemma submit_passes_form_data (c : Card) :
  isEditing c = true ->
  submitted (step c Submit) = submitted c ++ [formData c].
Proof. intros H. cbn. now rewrite H. Qed.


Lemma name_inj (c1 c2 : Control) : name c1 = name c2 -> c1 = c2.
Proof. destruct c1, c2; cbn; intros H; try reflexivity; discriminate H. Qed.

(** X17. With the form open, changing a control and then saving sends
    one payload: the form data with that control's field set to what was
    typed and the other fields as they were; saving closes the form. *)
Theorem edit_then_submit (c : Card) (control : Control) (value : string) :
  let c' := step (step c (Change control value)) Submit in
  let payload := <[name control := JStr value]> (formData c) in
  isEditing c = true ->
  submitted c' = submitted c ++ [payload]
  /\ payload !! name control = Some (JStr value)
  /\ (forall other, other <> control ->
        payload !! name other = formData c !! name other)
  /\ isEditing c' = false.
Proof.
  intros c' payload Hed; subst c' payload. cbn. rewrite Hed. cbn.
  rewrite Hed. cbn. repeat split.
  - apply lookup_insert_eq.
  - intros other Hne. apply lookup_insert_ne.
    intros Heq. apply Hne. symmetry. now apply name_inj.
Qed.

Lemma run_changes (edits : list Event) (c : Card) :
  forallb is_change edits = true ->
  user (run edits c) = user c
  /\ isEditing (run edits c) = isEditing c
  /\ submitted (run edits c) = submitted c.
Proof.
  revert c; induction edits as [|e edits IH]; intros c Hall;
    [now repeat split|].
  cbn in Hall. apply andb_prop in Hall as [He Hall].
  destruct e as [control value | | | u]; try discriminate He.
  change (run (Change control value :: edits) c)
    with (run edits (step c (Change control value))).
  destruct (IH (step c (Change control value)) Hall) as (Hu & Hi & Hs).
  rewrite Hu, Hi, Hs. cbn [step].
  destruct (isEditing c) eqn:Hed; [|now repeat split].
  unfold handleInputChange. cbn. now repeat split.
Qed.

Lemma run_app (evs1 evs2 : list Event) (c : Card) :
  run (evs1 ++ evs2) c = run evs2 (run evs1 c).
Proof. unfold run. apply fold_left_app. Qed.

(** X18. Cancel discards the edits: whatever was typed in the open form,
    after Cancel and Edit a Save sends the user's own values. *)
Theorem cancel_discards_edits (c : Card) (edits : list Event) :
  let c' := run (edits ++ [ToggleEdit; ToggleEdit; Submit]) c in
  isEditing c = true ->
  forallb is_change edits = true ->
  submitted c' = submitted c ++ [editable (user c)]
  /\ isEditing c' = false.
Proof.
  intros c' Hed Hall; subst c'. rewrite run_app.
  destruct (run_changes edits c Hall) as (Hu & Hi & Hs).
  destruct (run edits c) as [u1 e1 f1 s1]. cbn in Hu, Hi, Hs. subst u1 e1 s1.
  rewrite Hed. split; reflexivity.
Qed.

(** X19. Saving closes the form, so a second Save sends nothing more;
    and while the form is closed neither Save nor a change does
    anything. *)
Theorem submit_closes_form (c : Card) :
  isEditing (step c Submit) = false
  /\ step (step c Submit) Submit = step c Submit
  /\ (isEditing c = false ->
      step c Submit = c
      /\ forall control value, step c (Change control value) = c).
Proof.
  destruct c as [u [|] f s]; cbn; repeat split; intros;
    try discriminate; reflexivity.
Qed.

(** X20. From the form to the backend: every payload the form passes to
    [onUpdate], given to [handleUpdateProfile], goes out as exactly one
    [updateProfile] request that carries it unchanged with its three
    editable fields; if that request is rejected the displayed user
    stays as it was. *)
Theorem submitted_form_reaches_backend (profile : JsVal) (evs : list Event)
    (payload : gmap string JsVal) (b : Backend)
    (w : World ProfilePage.PageState) (token : Token) :
  let request := updateProfile token payload in
  let w' := exec b (ProfilePage.handleUpdateProfile token payload) w in
  In payload (submitted (run evs (initial profile))) ->
  requests w' = requests w ++ [Service request]
  /\ dom payload = editable_fields
  /\ (forall m,
        service b (length (requests w)) request = Rejected m ->
        ProfilePage.user (state w') = ProfilePage.user (state w)).
Proof.
  intros request w' Hin; subst w' request.
  destruct (well_formed_run evs _ (well_formed_initial profile)) as [_ Hsub].
  rewrite Forall_forall in Hsub. apply list_elem_of_In in Hin.
  unfold ProfilePage.handleUpdateProfile. cbn.
  repeat split.
  - destruct (service b _ _); reflexivity.
  - now apply Hsub.
  - intros m ->. reflexivity.
Qed.

End Card.

(** ** Text truncation *)

Section Truncation.

Import OfficerManageEventsPage.

Lemma length_substring_le (n m : nat) (s : string) :
  (String.length (substring n m s) <= m)%nat.
Proof.
  revert n m; induction s as [|c s IH]; intros n m.
  - destruct n, m; cbn; lia.
  - destruct n as [|n]; cbn.
    + destruct m as [|m]; cbn; [lia|]. specialize (IH 0%nat m). lia.
    + apply IH.
Qed.

Lemma length_append (s t : string) :
  String.length (s +:+ t) = (String.length s + String.length t)%nat.
Proof.
  induction s as [|c s IH]; [reflexivity|].
  change (S (String.length (s +:+ t)) = S (String.length s + String.length t)).
  now rewrite IH.
Qed.

Lemma length_prefix_substring (m : nat) (s : string) :
  (m <= String.length s)%nat -> String.length (substring 0 m s) = m.
Proof.
  revert m; induction s as [|c s IH]; intros [|m] Hm; cbn in *;
    try reflexivity; try lia.
  rewrite IH; lia.
Qed.

(** C9. [truncateText] returns the empty string for an absent or empty
    text, the text itself when it has at most [maxLength] characters, and
    otherwise its first [maxLength] characters followed by three dots; the
    result is never longer than [maxLength + 3]. *)
Theorem truncateText_spec (text : option string) (maxLength : nat) :
  (text = None \/ text = Some "" -> truncateText text maxLength = "")
  /\ (forall t, text = Some t -> (String.length t <= maxLength)%nat ->
                truncateText text maxLength = t)
  /\ (forall t, text = Some t -> (maxLength < String.length t)%nat ->
                truncateText text maxLength = substring 0 maxLength t +:+ "..."
                /\ String.length (substring 0 maxLength t) = maxLength)
  /\ (String.length (truncateText text maxLength) <= maxLength + 3)%nat.
Proof.
  repeat split.
  - intros [-> | ->]; reflexivity.
  - intros t -> Hle. unfold truncateText.
    destruct (String.eqb_spec t "") as [-> | _]; [reflexivity|].
    destruct (Nat.ltb_spec maxLength (String.length t)); [lia | reflexivity].
  - subst text. unfold truncateText.
    destruct (String.eqb_spec t "") as [-> | _]; [cbn in *; lia|].
    destruct (Nat.ltb_spec maxLength (String.length t)); [reflexivity | lia].
  - subst text. apply length_prefix_substring. lia.
  - unfold truncateText. destruct text as [t|]; [|cbn; lia].
    destruct (String.eqb_spec t "") as [-> | _]; [cbn; lia|].
    destruct (Nat.ltb_spec maxLength (String.length t)) as [Hlt | Hge].
    + rewrite length_append. pose proof (length_substring_le 0 maxLength t).
      cbn [String.length]. lia.
    + lia.
Qed.

Example truncateText_long :
  truncateText (Some "General Assembly and Election of Officers 2025") 40
  = "General Assembly and Election of Officer...".
Proof. reflexivity. Qed.

Example truncateText_short : truncateText (Some "Gymnasium") 25 = "Gymnasium".
Proof. reflexivity. Qed.


(** X21. [truncateText] shows nothing only when there is nothing to
    show: its result is empty exactly when the text is absent or empty,
    whatever the limit (a limit of 0 shows the three dots). *)
Theorem truncateText_empty_iff (text : option string) (maxLength : nat) :
  truncateText text maxLength = "" <-> text = None \/ text = Some "".
Proof.
  split.
  - destruct text as [t|]; [|now left]. unfold truncateText.
    destruct (String.eqb_spec t "") as [-> | Hne]; [now right|].
    destruct (Nat.ltb_spec maxLength (String.length t)) as [Hlt|Hge];
      intros Heq.
    + apply (f_equal String.length) in Heq. rewrite length_append in Heq.
      cbn in Heq. lia.
    + congruence.
  - intros [-> | ->]; reflexivity.
Qed.

End Truncation.

(** ** Failures across both pages *)

(** C2, as amended.  On the officer page (the events fetch and every
    handler) and for the profile update, a request failure that is not a
    401 / invalid-token failure opens the error-type status modal and
    leaves the stored credentials and the route alone; for the
    participants request that includes a response whose body cannot be
    read.  The profile fetch is different: any failure clears the
    credentials and goes to the login page, with no dialog. *)
Theorem other_failures_show_error_dialog (API_URL : string)
    (JSON_parse : string -> Settled JsVal) (b : Backend) :
  (forall (w : World OfficerManageEventsPage.PageState) p req reply,
      (p = OfficerManageEventsPage.fetchData JSON_parse
             (OfficerManageEventsPage.render_token w)
             (OfficerManageEventsPage.showArchived (state w))
       \/ exists e, p = OfficerManageEventsPage.handle API_URL JSON_parse w e) ->
      In (req, reply) (exchanges w (exec b p w)) ->
      OfficerManageEventsPage.failed reply = true ->
      OfficerManageEventsPage.unauthorized reply = false ->
      OfficerManageEventsPage.error_dialog_only w (exec b p w))
  /\ (forall (w : World OfficerManageEventsPage.PageState) token event,
      let request :=
        OfficerManageEventsPage.participants_request API_URL (Some token)
          event in
      let reply := http b (length (requests w)) request in
      let w' :=
        exec b
          (OfficerManageEventsPage.handleParticipants API_URL (Some token)
             event) w in
      truthy (get event "id") = true ->
      OfficerManageEventsPage.participants_fetch_fails reply = true ->
      OfficerManageEventsPage.unauthorized (HttpReply reply) = false ->
      OfficerManageEventsPage.error_dialog_only w w'
      /\ OfficerManageEventsPage.statusModal (state w')
         = OfficerManageEventsPage.StatusModal.mk true "Error"
             "Failed to load participants. Please try again later."
             "error")
  /\ (forall (w : World ProfilePage.PageState) token updatedData message,
      let w' := exec b (ProfilePage.handleUpdateProfile token updatedData) w in
      service b (length (requests w)) (updateProfile token updatedData)
      = Rejected message ->
      OfficerManageEventsPage.unauthorized (ServiceReply (Rejected message))
      = false ->
      ProfilePage.ModalState.isOpen (ProfilePage.modalState (state w')) = true
      /\ ProfilePage.ModalState.type (ProfilePage.modalState (state w'))
         = "error"
      /\ localStorage w' = localStorage w
      /\ navigated w' = navigated w)
  /\ (forall (w : World ProfilePage.PageState) token message,
      let w' := exec b (ProfilePage.fetchProfile token) w in
      present token = true ->
      service b (length (requests w)) (getProfile token) = Rejected message ->
      localStorage w'
      = delete "user_id" (delete "access_token" (localStorage w))
      /\ navigated w' = navigated w ++ ["/"]
      /\ ProfilePage.modalState (state w') = ProfilePage.modalState (state w)).
Proof.
  split; [|split; [|split]].
  - intros w p req reply [-> | [e ->]] Hin Hf Hu;
      [ eapply fetchData_failure_shows_error
      | eapply officer_failure_shows_error ]; eassumption.
  - intros w token event request reply w' Hid Hfail Hu.
    apply participants_failure_shows_error; assumption.
  - intros w token updatedData message w' Hko _.
    destruct (failed_update_shows_error b w token updatedData message Hko)
      as (Ho & Ht & _ & Hs & Hn).
    repeat split; assumption.
  - intros w token message w' Htok Hko.
    destruct (failed_fetch_logs_out b w token message Htok Hko)
      as (Hs & Hn & Hm & _).
    repeat split; assumption.
Qed.

(** ** The properties on the concrete session *)

Section Examples.

Import Scenario.

(** The profile fetch fails because the network is down: the stored
    credentials are removed, the page goes to the login route, and no
    dialog is opened. *)
Lemma profile_fetch_failure_logs_out :
  let reply := ServiceReply (Rejected "Failed to fetch") in
  let w' :=
    exec (answering 503 "Failed to fetch")
      (ProfilePage.fetchProfile (Some token)) student_world in
  settled w' = [(Service (getProfile (Some token)), reply)]
  /\ OfficerManageEventsPage.failed reply = true
  /\ OfficerManageEventsPage.unauthorized reply = false
  /\ ProfilePage.ModalState.isOpen (ProfilePage.modalState (state w')) = false
  /\ localStorage w' !! "access_token" = None
  /\ localStorage student_world !! "access_token" = Some token
  /\ navigated w' = ["/"].
Proof. repeat split; vm_compute; reflexivity. Qed.

Lemma other_failures_show_error_dialog_witness :
  OfficerManageEventsPage.error_dialog_only officer_world
    (exec (answering 500 "Internal Server Error")
       (OfficerManageEventsPage.handle API_URL JSON_parse officer_world
          (OfficerManageEventsPage.SaveEvent assembly (JNum 7)))
       officer_world)
  /\ OfficerManageEventsPage.error_dialog_only officer_world
       (exec (always (Rejected "")
                (Fulfilled (mkHttpResponse 200
                              (Rejected "Unexpected end of JSON input"))))
          (OfficerManageEventsPage.handleParticipants API_URL (Some token)
             assembly)
          officer_world).
Proof.
  split.
  - eapply (proj1 (other_failures_show_error_dialog API_URL JSON_parse
                     (answering 500 "Internal Server Error"))
              officer_world _
              (Service (updateOfficerEvent (JNum 7) assembly (Some token)))
              (ServiceReply (Rejected "Internal Server Error"))).
    + right. eexists. reflexivity.
    + vm_compute. left. reflexivity.
    + reflexivity.
    + vm_compute. reflexivity.
  - apply (proj1 (proj2 (other_failures_show_error_dialog API_URL JSON_parse
                           (always (Rejected "")
                              (Fulfilled (mkHttpResponse 200
                                 (Rejected "Unexpected end of JSON input"))))))
             officer_world token assembly eq_refl eq_refl eq_refl).
Defined.

Lemma unauthorized_update_keeps_session_witness :
  let w' :=
    exec (answering 401 "HTTP error! status: 401")
      (ProfilePage.handleUpdateProfile (Some token)
         (ProfileCard.editable student)) student_world in
  localStorage w' = localStorage student_world
  /\ navigated w' = navigated student_world
  /\ ProfilePage.modalState (state w')
     = ProfilePage.ModalState.mk true "error" "Profile Update Failed"
         "Failed to update profile. Please try again.".
Proof.
  apply (unauthorized_update_keeps_session
           (answering 401 "HTTP error! status: 401") student_world
           (Some token) (ProfileCard.editable student)
           "HTTP error! status: 401").
  - reflexivity.
  - vm_compute. reflexivity.
Defined.

(** The same run, read off the browser: the token is still stored and
    the router has not moved. *)
Example unauthorized_update_leaves_token :
  let w' :=
    exec (answering 401 "HTTP error! status: 401")
      (ProfilePage.handleUpdateProfile (Some token)
         (ProfileCard.editable student)) student_world in
  localStorage w' !! "access_token" = Some token
  /\ localStorage w' !! "user_id" = Some "42"
  /\ navigated w' = [].
Proof. repeat split; vm_compute; reflexivity. Qed.

(** The list refresh after a successful approval is rejected as
    unauthorized: the officer stays logged in and sees an error modal. *)
Example unauthorized_refresh_after_approval :
  let w' :=
    exec (always (Rejected "Invalid or expired token")
            (Fulfilled (mkHttpResponse 200 (Fulfilled (JObj [])))))
      (OfficerManageEventsPage.handle API_URL JSON_parse officer_world
         (OfficerManageEventsPage.SubmitApproval "approve" None))
      officer_world in
  localStorage w' !! "officerAccessToken" = Some token
  /\ navigated w' = []
  /\ OfficerManageEventsPage.statusModal (state w')
     = OfficerManageEventsPage.StatusModal.mk true "Error"
         "Invalid or expired token" "error".
Proof. repeat split; vm_compute; reflexivity. Qed.

Lemma successful_mutation_refetches_events_witness :
  OfficerManageEventsPage.events
    (state (exec (accepting (JArr [assembly]))
              (OfficerManageEventsPage.handleSave (Some token) false
                 assembly (JNum 7))
              officer_world))
  = JArr [assembly].
Proof.
  apply (proj1 (successful_mutation_refetches_events
                  (accepting (JArr [assembly])) officer_world)
           (Some token) false assembly (JNum 7) (JArr [assembly]) eq_refl).
  reflexivity.
Defined.

(** The participants request is answered 401: the modal stays closed. *)
Lemma participants_unauthorized_keeps_modal_closed :
  let reply := Fulfilled (mkHttpResponse 401 (Rejected "")) in
  let request :=
    OfficerManageEventsPage.participants_request API_URL (Some token)
      assembly in
  let w' :=
    exec (answering 401 "")
      (OfficerManageEventsPage.handleParticipants API_URL (Some token)
         assembly)
      officer_world in
  settled w' = [(Http request, HttpReply reply)]
  /\ OfficerManageEventsPage.participants_fetch_fails reply = true
  /\ OfficerManageEventsPage.showParticipantsModal (state w') = false
  /\ localStorage w' !! "officerAccessToken" = None
  /\ navigated w' = ["/officer-login"].
Proof. repeat split; vm_compute; reflexivity. Qed.

Lemma failed_participants_fetch_opens_empty_modal_witness :
  let w' :=
    exec (answering 500 "")
      (OfficerManageEventsPage.handleParticipants API_URL (Some token)
         assembly)
      officer_world in
  OfficerManageEventsPage.showParticipantsModal (state w') = true
  /\ OfficerManageEventsPage.participants (state w') = JArr [].
Proof.
  apply (failed_participants_fetch_opens_empty_modal API_URL
           (answering 500 "") officer_world token assembly
           eq_refl eq_refl).
  reflexivity.
Defined.

(** The approve request is answered 401: no status modal is shown. *)
Lemma approval_unauthorized_shows_no_modal :
  let request :=
    OfficerManageEventsPage.approve_request API_URL (Some token) (JNum 7) in
  let w' :=
    exec (answering 401 "")
      (OfficerManageEventsPage.handle API_URL JSON_parse officer_world
         (OfficerManageEventsPage.SubmitApproval "approve" None))
      officer_world in
  requests w' = [Http request]
  /\ OfficerManageEventsPage.StatusModal.isOpen
       (OfficerManageEventsPage.statusModal (state w')) = false
  /\ localStorage w' !! "officerAccessToken" = None
  /\ navigated w' = ["/officer-login"].
Proof. repeat split; vm_compute; reflexivity. Qed.

Lemma approval_submission_witness :
  let w' :=
    exec (answering 500 "")
      (OfficerManageEventsPage.handle API_URL JSON_parse officer_world
         (OfficerManageEventsPage.SubmitApproval "decline"
            (Some "Budget not approved")))
      officer_world in
  requests w' = requests officer_world
  /\ OfficerManageEventsPage.statusModal (state w')
     = OfficerManageEventsPage.StatusModal.mk true "Event Declined"
         "The event plan has been declined. Reason: Budget not approved"
         "error".
Proof.
  apply (proj1 (proj2 (approval_submission API_URL JSON_parse
                         (answering 500 "") officer_world "decline"
                         (Some "Budget not approved")))
           eq_refl eq_refl).
Defined.

Lemma successful_update_replaces_user_witness :
  let w' :=
    exec (accepting student)
      (ProfilePage.handleUpdateProfile (Some token)
         (ProfileCard.editable student)) student_world in
  ProfilePage.user (state w') = student
  /\ ProfilePage.modalState (state w')
     = ProfilePage.ModalState.mk true "success" "Profile Updated"
         "Your profile has been successfully updated."
  /\ requests w'
     = requests student_world
       ++ [Service (updateProfile (Some token) (ProfileCard.editable student))]
  /\ localStorage w' = localStorage student_world
  /\ navigated w' = navigated student_world.
Proof.
  apply (successful_update_replaces_user (accepting student) student_world
           (Some token) (ProfileCard.editable student) student eq_refl).
Defined.

(** The officer archives the assembly: the request goes out at the
    confirm click. *)
Lemma archive_requires_confirmation_witness :
  OfficerManageEventsPage.confirmed archiving.
Proof.
  apply (proj2 (proj2 (archive_requires_confirmation API_URL JSON_parse
                         officer_storage archiving))
           (Service (deleteOfficerEvent JNull (Some token)))).
  - vm_compute. right. left. reflexivity.
  - reflexivity.
Defined.

(** The request of that run carries the event id of the render in which
    Archive was clicked, whose confirmation modal did not hold the
    assembly's id yet. *)
Example archive_sends_captured_event_id :
  requests (world (OfficerManageEventsPage.run API_URL JSON_parse archiving
                     (OfficerManageEventsPage.mount JSON_parse
                        officer_storage)))
  = [Service (getOfficerEvents (Some token) false);
     Service (deleteOfficerEvent JNull (Some token))].
Proof. vm_compute. reflexivity. Qed.

Lemma confirmation_modal_stays_open_while_loading_witness :
  let m :=
    OfficerManageEventsPage.run API_URL JSON_parse
      (firstn 2 archiving)
      (OfficerManageEventsPage.mount JSON_parse officer_storage) in
  let confirm :=
    OfficerManageEventsPage.step API_URL JSON_parse m
      (OfficerManageEventsPage.Ui OfficerManageEventsPage.ClickConfirm) in
  OfficerManageEventsPage.ConfirmationModal.isLoading
    (OfficerManageEventsPage.confirmationModal (state (world confirm)))
  = true
  /\ OfficerManageEventsPage.step API_URL JSON_parse confirm
       (OfficerManageEventsPage.Ui
          OfficerManageEventsPage.CloseConfirmationModal)
     = confirm.
Proof.
  intros m confirm.
  destruct (proj2 (proj2 (confirmation_modal_stays_open_while_loading
                            API_URL JSON_parse m))
              (OfficerManageEventsPage.mkClosure JNull (Some token) false))
    as (_ & _ & Hloading & _ & Hclose).
  - vm_compute. reflexivity.
  - vm_compute. reflexivity.
  - split; [exact Hloading | exact Hclose].
Defined.

(** The student edits the name and saves: the payload has the three
    editable fields. *)
Example edited_payload :
  ProfileCard.submitted
    (ProfileCard.run
       [ProfileCard.ToggleEdit;
        ProfileCard.Change ProfileCard.FullNameInput "Ana Maria Cruz";
        ProfileCard.Submit]
       (ProfileCard.initial student))
  = [<["full_name" := JStr "Ana Maria Cruz"]> (ProfileCard.editable student)].
Proof. vm_compute. reflexivity. Qed.


(** *** Further runs of the session *)

Lemma session_cleared_only_when_unauthorized_witness :
  let w' :=
    exec (answering 500 "Internal Server Error")
      (OfficerManageEventsPage.handle API_URL JSON_parse officer_world
         (OfficerManageEventsPage.SaveEvent assembly (JNum 7)))
      officer_world in
  localStorage w' = localStorage officer_world
  /\ navigated w' = navigated officer_world.
Proof.
  apply (session_cleared_only_when_unauthorized API_URL JSON_parse
           (answering 500 "Internal Server Error") officer_world
           (OfficerManageEventsPage.SaveEvent assembly (JNum 7))).
  - intros s m. unfold JSON_parse.
    destruct (String.eqb s "null"); [discriminate|].
    destruct (String.eqb s "{}"); [discriminate|].
    intros [= <-]. reflexivity.
  - intros req reply Hin. vm_compute in Hin.
    destruct Hin as [[= <- <-] | []]. reflexivity.
Defined.

Lemma fetchData_outcomes_witness :
  let w' :=
    exec (accepting (JArr [assembly]))
      (OfficerManageEventsPage.fetchData JSON_parse (Some token) true)
      officer_world in
  OfficerManageEventsPage.officer (state w') = JObj []
  /\ OfficerManageEventsPage.events (state w') = JArr [assembly]
  /\ requests w'
     = requests officer_world ++ [Service (getOfficerEvents (Some token) true)]
  /\ OfficerManageEventsPage.statusModal (state w')
     = OfficerManageEventsPage.statusModal (state officer_world)
  /\ localStorage w' = localStorage officer_world
  /\ navigated w' = navigated officer_world.
Proof.
  apply (proj1 (fetchData_outcomes JSON_parse (accepting (JArr [assembly]))
                  officer_world (Some token) true eq_refl)
           (JObj []) (JArr [assembly])).
  - vm_compute. reflexivity.
  - reflexivity.
Defined.

Lemma participants_fetch_success_witness :
  let w' :=
    exec (accepting JNull)
      (OfficerManageEventsPage.handleParticipants API_URL (Some token)
         assembly)
      officer_world in
  OfficerManageEventsPage.participants (state w') = JArr []
  /\ OfficerManageEventsPage.showParticipantsModal (state w') = true
  /\ OfficerManageEventsPage.showDetailsModal (state w') = false
  /\ OfficerManageEventsPage.selectedEvent (state w') = assembly
  /\ requests w'
     = requests officer_world
       ++ [Http (OfficerManageEventsPage.participants_request API_URL
                   (Some token) assembly)]
  /\ OfficerManageEventsPage.statusModal (state w')
     = OfficerManageEventsPage.statusModal (state officer_world)
  /\ localStorage w' = localStorage officer_world
  /\ navigated w' = navigated officer_world.
Proof.
  apply (participants_fetch_success API_URL (accepting JNull) officer_world
           token assembly (mkHttpResponse 200 (Fulfilled JNull)) JNull
           eq_refl eq_refl eq_refl eq_refl).
Defined.

Lemma participants_of_invalid_event_witness :
  exec (accepting JNull)
    (OfficerManageEventsPage.handleParticipants API_URL (Some token)
       (JObj [("title", JStr "Untitled")]))
    officer_world
  = with_state
      (OfficerManageEventsPage.setStatusModal
         (OfficerManageEventsPage.StatusModal.mk true "Error"
            "Cannot load participants: Invalid event." "error"))
      officer_world.
Proof.
  apply (participants_of_invalid_event API_URL (accepting JNull)
           officer_world (Some token) (JObj [("title", JStr "Untitled")])
           eq_refl).
Defined.


Lemma details_round_trip_witness :
  exec (accepting JNull) OfficerManageEventsPage.handleCloseDetailsModal
    (exec (accepting JNull) (OfficerManageEventsPage.handleDetails assembly)
       officer_world)
  = officer_world.
Proof.
  apply (proj1 (proj1 (details_round_trip (accepting JNull) officer_world
                         assembly) eq_refl));
    reflexivity.
Defined.

Lemma mount_without_token_witness :
  let m := OfficerManageEventsPage.mount JSON_parse ∅ in
  OfficerManageEventsPage.run API_URL JSON_parse archiving m = m
  /\ requests (world m) = []
  /\ pending m = []
  /\ navigated (world m) = ["/officer-login"]
  /\ localStorage (world m)
     = delete "officerInfo" (delete "officerAccessToken" ∅)
  /\ OfficerManageEventsPage.isLoading (state (world m)) = true.
Proof.
  apply (mount_without_token API_URL JSON_parse ∅ archiving).
  vm_compute. reflexivity.
Defined.

Lemma mount_without_officer_info_witness :
  let storage : gmap string string := {["officerAccessToken" := token]} in
  let m := OfficerManageEventsPage.mount JSON_parse storage in
  requests (world m)
  = [Service (getOfficerEvents (storage !! "officerAccessToken") false)]
  /\ length (pending m) = 1
  /\ navigated (world m) = ["/officer-login"]
  /\ localStorage (world m)
     = delete "officerInfo" (delete "officerAccessToken" storage)
  /\ OfficerManageEventsPage.officer (state (world m)) = JNull.
Proof.
  apply (mount_without_officer_info JSON_parse
           {["officerAccessToken" := token]});
    vm_compute; reflexivity.
Defined.

Lemma confirm_archives_previous_id_witness :
  let m := loaded_page API_URL JSON_parse officer_storage (JArr [assembly]) in
  let clicked :=
    OfficerManageEventsPage.step API_URL JSON_parse m
      (OfficerManageEventsPage.Ui
         (OfficerManageEventsPage.ClickArchive (JNum 7))) in
  let after_confirm :=
    OfficerManageEventsPage.step API_URL JSON_parse clicked
      (OfficerManageEventsPage.Ui OfficerManageEventsPage.ClickConfirm) in
  OfficerManageEventsPage.ConfirmationModal.eventId
    (OfficerManageEventsPage.confirmationModal (state (world clicked)))
  = JNum 7
  /\ requests (world after_confirm)
     = requests (world m)
       ++ [Service
             (deleteOfficerEvent
                (OfficerManageEventsPage.ConfirmationModal.eventId
                   (OfficerManageEventsPage.confirmationModal
                      (state (world m))))
                (OfficerManageEventsPage.render_token (world m)))].
Proof.
  apply (confirm_archives_previous_id API_URL JSON_parse
           (loaded_page API_URL JSON_parse officer_storage (JArr [assembly]))
           (JNum 7)).
  vm_compute. reflexivity.
Defined.

Lemma submission_approves_clicked_id_witness :
  let m := loaded_page API_URL JSON_parse officer_storage (JArr [assembly]) in
  let clicked :=
    OfficerManageEventsPage.step API_URL JSON_parse m
      (OfficerManageEventsPage.Ui
         (OfficerManageEventsPage.ClickApproveEvent (JNum 7))) in
  let after_submit :=
    OfficerManageEventsPage.step API_URL JSON_parse clicked
      (OfficerManageEventsPage.Ui
         (OfficerManageEventsPage.SubmitApproval "approve" None)) in
  OfficerManageEventsPage.approvalModal (state (world clicked))
  = OfficerManageEventsPage.ApprovalModal.mk true (JNum 7)
  /\ requests (world after_submit)
     = requests (world m)
       ++ [Http (OfficerManageEventsPage.approve_request API_URL
                   (OfficerManageEventsPage.render_token (world m))
                   (JNum 7))].
Proof.
  apply (submission_approves_clicked_id API_URL JSON_parse
           (loaded_page API_URL JSON_parse officer_storage (JArr [assembly]))
           (JNum 7) "approve" None).
  - vm_compute. reflexivity.
  - reflexivity.
  - intros H. discriminate H.
Defined.

Lemma edit_then_submit_witness :
  let c := ProfileCard.step (ProfileCard.initial student) ProfileCard.ToggleEdit in
  let c' :=
    ProfileCard.step
      (ProfileCard.step c
         (ProfileCard.Change ProfileCard.FullNameInput "Ana Maria Cruz"))
      ProfileCard.Submit in
  let payload :=
    <[ProfileCard.name ProfileCard.FullNameInput := JStr "Ana Maria Cruz"]>
      (ProfileCard.formData c) in
  ProfileCard.submitted c' = ProfileCard.submitted c ++ [payload]
  /\ payload !! ProfileCard.name ProfileCard.FullNameInput
     = Some (JStr "Ana Maria Cruz")
  /\ (forall other, other <> ProfileCard.FullNameInput ->
        payload !! ProfileCard.name other
        = ProfileCard.formData c !! ProfileCard.name other)
  /\ ProfileCard.isEditing c' = false.
Proof.
  apply (edit_then_submit
           (ProfileCard.step (ProfileCard.initial student) ProfileCard.ToggleEdit)
           ProfileCard.FullNameInput "Ana Maria Cruz").
  reflexivity.
Defined.

Lemma cancel_discards_edits_witness :
  let c := ProfileCard.step (ProfileCard.initial student) ProfileCard.ToggleEdit in
  let edits :=
    [ProfileCard.Change ProfileCard.FullNameInput "Someone Else";
     ProfileCard.Change ProfileCard.YearSelect "4th Year"] in
  let c' :=
    ProfileCard.run
      (edits ++ [ProfileCard.ToggleEdit; ProfileCard.ToggleEdit;
                 ProfileCard.Submit]) c in
  ProfileCard.submitted c'
  = ProfileCard.submitted c ++ [ProfileCard.editable (ProfileCard.user c)]
  /\ ProfileCard.isEditing c' = false.
Proof.
  apply (cancel_discards_edits
           (ProfileCard.step (ProfileCard.initial student) ProfileCard.ToggleEdit)
           [ProfileCard.Change ProfileCard.FullNameInput "Someone Else";
            ProfileCard.Change ProfileCard.YearSelect "4th Year"]);
    reflexivity.
Defined.

Lemma submitted_form_reaches_backend_witness :
  let payload :=
    <["full_name" := JStr "Ana Maria Cruz"]> (ProfileCard.editable student) in
  let request := updateProfile (Some token) payload in
  let w' :=
    exec (answering 500 "Internal Server Error")
      (ProfilePage.handleUpdateProfile (Some token) payload) student_world in
  requests w' = requests student_world ++ [Service request]
  /\ dom payload = ProfileCard.editable_fields
  /\ (forall m,
        service (answering 500 "Internal Server Error")
          (length (requests student_world)) request = Rejected m ->
        ProfilePage.user (state w') = ProfilePage.user (state student_world)).
Proof.
  apply (submitted_form_reaches_backend student
           [ProfileCard.ToggleEdit;
            ProfileCard.Change ProfileCard.FullNameInput "Ana Maria Cruz";
            ProfileCard.Submit]
           (<["full_name" := JStr "Ana Maria Cruz"]>
              (ProfileCard.editable student))
           (answering 500 "Internal Server Error") student_world
           (Some token)).
  vm_compute. left. reflexivity.
Defined.

End Examples.
